(** * Firefox launcher (src/server/firefox.ts): a shallow embedding

    The file models the launch orchestration of [Firefox._launchServer]:
    profile provisioning ([populateProfile]), argument assembly
    ([_defaultArgs]), the environment handed to the child, the readiness
    pattern, and the asynchronous control flow (which calls are awaited and
    which are not).  JavaScript strings are modelled by [string], whose
    characters stand for code units below 256; numbers that the code only
    uses as integers are [Z]; the environment object is a [gmap]. *)

From Stdlib Require Import ZArith String Ascii List Bool Lia.
From stdpp Require Import gmap strings list pretty.

Local Open Scope string_scope.
Local Open Scope list_scope.
Local Open Scope Z_scope.

(** ** JavaScript built-ins used by the source *)

Module JS.

(** The double-quote character, as a one-character string. *)
Definition dquote : string := String "034"%char EmptyString.
Definition backslash : string := String "092"%char EmptyString.
(** The line-feed character of the source literal '\n'. *)
Definition LF : string := String "010"%char EmptyString.

(** [s.startsWith(searchString)] *)
Definition startsWith (s searchString : string) : bool :=
  String.prefix searchString s.

(** Truthiness of a value of type [string | undefined | null]. *)
Definition truthy (v : option string) : option string :=
  match v with
  | Some s => if String.eqb s "" then None else Some s
  | None => None
  end.

Definition is_truthy (v : option string) : bool :=
  match truthy v with Some _ => true | None => false end.

(** [port || 0] on [number | undefined]. *)
Definition or_zero (v : option Z) : Z := default 0 v.

(** The integers that a JavaScript number holds exactly, the safe
    integers: those strictly between minus and plus 2 to the 53.  Numbers
    are modelled as integers; what the code does with a number that is no
    safe integer (a fraction, or an integer so large that it is printed
    with an exponent) is not modelled. *)
Definition safe_integer (n : Z) : Prop := - 2 ^ 53 < n < 2 ^ 53.

(** [String(n)] and a template substitution of a safe integer: its
    decimal digits, after a minus sign when it is negative. *)
Definition String_of_number (n : Z) : string := pretty n.

(** A template substitution of [string | undefined]. *)
Definition template (v : option string) : string := default "undefined" v.

(** [array.join(separator)] *)
Definition join (separator : string) (a : list string) : string :=
  String.concat separator a.

(** [array.includes(x)] on strings. *)
Definition includes (a : list string) (x : string) : bool :=
  existsb (String.eqb x) a.

Definition hex_digit (n : N) : string :=
  String (ascii_of_N (if (n <? 10)%N then 48 + n else 87 + n)%N) EmptyString.

(** JSON's escape of one code unit inside a string literal. *)
Definition escape (c : ascii) : string :=
  let n := N_of_ascii c in
  if (n =? 34)%N then backslash +:+ dquote
  else if (n =? 92)%N then backslash +:+ backslash
  else if (n =? 8)%N then backslash +:+ "b"
  else if (n =? 12)%N then backslash +:+ "f"
  else if (n =? 10)%N then backslash +:+ "n"
  else if (n =? 13)%N then backslash +:+ "r"
  else if (n =? 9)%N then backslash +:+ "t"
  else if (n <? 32)%N then
    backslash +:+ "u00" +:+ hex_digit (n / 16) +:+ hex_digit (n mod 16)
  else String c EmptyString.

Fixpoint escape_all (s : string) : string :=
  match s with
  | EmptyString => EmptyString
  | String c rest => escape c +:+ escape_all rest
  end.

(** The values that occur in the preference table. *)
Inductive value : Type :=
| VBool (b : bool)
| VNum (n : Z)
| VStr (s : string).

Definition stringify_string (s : string) : string :=
  dquote +:+ escape_all s +:+ dquote.

(** [JSON.stringify(v)] *)
Definition stringify (v : value) : string :=
  match v with
  | VBool true => "true"
  | VBool false => "false"
  | VNum n => String_of_number n
  | VStr s => stringify_string s
  end.

End JS.

(** ** The host: Node's [os], [path] and [process] modules, and what
    [browserFetcher.revisionInfo()] answers on it for the fetcher that
    [_resolveExecutablePath] makes (BrowserFetcher is not among the
    sources) *)

Record RevisionInfo : Type := {
  local : bool;
  revisionExecutablePath : string;
}.

Record Host : Type := {
  os_platform : string;
  os_arch : string;
  os_tmpdir : string;
  process_env : gmap string string;
  path_join : string -> string -> string;
  path_dirname : string -> string;
  revisionInfo : RevisionInfo;
}.

(** ** Options *)

(** [ignoreDefaultArgs?: boolean | string[]] *)
Inductive IgnoreDefaultArgs : Type :=
| IgnoreAll (b : bool)
| IgnoreThese (denied : list string).

Module LaunchOptions.
(** [None] is a property that is absent (undefined). *)
Record t : Type := {
  ignoreDefaultArgs : option IgnoreDefaultArgs;
  args : option (list string);
  dumpio : option bool;
  executablePath : option string;
  env : option (gmap string string);
  handleSIGHUP : option bool;
  handleSIGINT : option bool;
  handleSIGTERM : option bool;
  timeout : option Z;
  devtools : option bool;
  headless : option bool;
}.

(** The object literal [{}]. *)
Definition empty : t :=
  {| ignoreDefaultArgs := None; args := None; dumpio := None;
     executablePath := None; env := None; handleSIGHUP := None;
     handleSIGINT := None; handleSIGTERM := None; timeout := None;
     devtools := None; headless := None |}.
End LaunchOptions.

(** The outcome of a synchronous call: a value, or a thrown [Error] with
    its message. *)
Inductive completion (A : Type) : Type :=
| Returned (a : A)
| Threw (message : string).
Arguments Returned {A} a.
Arguments Threw {A} message.

Definition completion_map {A B} (f : A -> B) (c : completion A) : completion B :=
  match c with
  | Returned a => Returned (f a)
  | Threw m => Threw m
  end.

(** ** Argument assembly *)

Definition devtools_error : string :=
  "Option " +:+ JS.dquote +:+ "devtools" +:+ JS.dquote +:+ " is not supported by Firefox".
Definition profile_error : string :=
  "Pass userDataDir parameter instead of specifying -profile argument".
Definition juggler_error : string :=
  "Use the port parameter instead of -juggler argument".

Definition is_profile_arg (arg : string) : bool :=
  JS.startsWith arg "-profile" || JS.startsWith arg "--profile".
Definition is_juggler_arg (arg : string) : bool :=
  JS.startsWith arg "-juggler".
Definition is_flag (arg : string) : bool :=
  JS.startsWith arg "-".

(** [Firefox._defaultArgs(options, userDataDir, port)] *)
Definition _defaultArgs (options : LaunchOptions.t) (userDataDir : string) (port : Z)
  : completion (list string) :=
  let devtools := default false (LaunchOptions.devtools options) in
  let headless := default (negb devtools) (LaunchOptions.headless options) in
  let args := default [] (LaunchOptions.args options) in
  if devtools then Threw devtools_error
  else
    let userDataDirArg := find is_profile_arg args in
    if JS.is_truthy userDataDirArg then Threw profile_error
    else if JS.is_truthy (find is_juggler_arg args) then Threw juggler_error
    else
      let firefoxArguments := ["-no-remote"] in
      let firefoxArguments :=
        firefoxArguments ++ [if headless then "-headless" else "-wait-for-browser"] in
      let firefoxArguments := firefoxArguments ++ ["-profile"; userDataDir] in
      let firefoxArguments := firefoxArguments ++ ["-juggler"; JS.String_of_number port] in
      let firefoxArguments := firefoxArguments ++ args in
      let firefoxArguments :=
        if forallb is_flag args
        then firefoxArguments ++ ["about:blank"]
        else firefoxArguments in
      Returned firefoxArguments.

(** The three-way branch of [_launchServer] that fills [firefoxArguments]:
    a falsy [ignoreDefaultArgs] takes the default arguments, an array takes
    them filtered, anything else (the value [true]) takes the caller's
    [args] alone. *)
Definition firefoxArguments (options : LaunchOptions.t) (userDataDir : string)
    (port : option Z) : completion (list string) :=
  let ignoreDefaultArgs := default (IgnoreAll false) (LaunchOptions.ignoreDefaultArgs options) in
  let args := default [] (LaunchOptions.args options) in
  match ignoreDefaultArgs with
  | IgnoreAll false => _defaultArgs options userDataDir (JS.or_zero port)
  | IgnoreThese denied =>
      completion_map (List.filter (fun arg => negb (JS.includes denied arg)))
        (_defaultArgs options userDataDir (JS.or_zero port))
  | IgnoreAll true => Returned args
  end.

(** ** The environment of the child *)

(** The [env] property of the object passed to [launchProcess]. *)
Definition launch_env (host : Host) (env : gmap string string)
    (firefoxExecutable : string) : gmap string string :=
  if String.eqb (os_platform host) "linux" then
    <[ "LD_LIBRARY_PATH" :=
         path_dirname host firefoxExecutable +:+ ":" +:+
         JS.template (process_env host !! "LD_LIBRARY_PATH") ]> env
  else env.

(** ** The profile *)

Definition DUMMY_UMA_SERVER : string := "dummy.test".

(** The entries of the object literal [DEFAULT_PREFERENCES], in source
    order, which is the order [Object.entries] enumerates them in (no key
    is an array index, and no key occurs twice in the literal). *)
Definition DEFAULT_PREFERENCES : list (string * JS.value) :=
  [
    ("app.normandy.api_url", JS.VStr EmptyString);
    ("app.update.checkInstallTime", JS.VBool false);
    ("app.update.disabledForTesting", JS.VBool true);
    ("apz.content_response_timeout", JS.VNum (60000));
    ("browser.contentblocking.features.standard", JS.VStr "-tp,tpPrivate,cookieBehavior0,-cm,-fp");
    ("browser.dom.window.dump.enabled", JS.VBool true);
    ("browser.newtabpage.activity-stream.feeds.section.topstories", JS.VBool false);
    ("browser.newtabpage.enabled", JS.VBool false);
    ("browser.pagethumbnails.capturing_disabled", JS.VBool true);
    ("browser.safebrowsing.blockedURIs.enabled", JS.VBool false);
    ("browser.safebrowsing.downloads.enabled", JS.VBool false);
    ("browser.safebrowsing.malware.enabled", JS.VBool false);
    ("browser.safebrowsing.passwords.enabled", JS.VBool false);
    ("browser.safebrowsing.phishing.enabled", JS.VBool false);
    ("browser.search.update", JS.VBool false);
    ("browser.sessionstore.resume_from_crash", JS.VBool false);
    ("browser.shell.checkDefaultBrowser", JS.VBool false);
    ("browser.startup.homepage", JS.VStr "about:blank");
    ("browser.startup.homepage_override.mstone", JS.VStr "ignore");
    ("browser.startup.page", JS.VNum (0));
    ("browser.tabs.disableBackgroundZombification", JS.VBool false);
    ("browser.tabs.warnOnCloseOtherTabs", JS.VBool false);
    ("browser.tabs.warnOnOpen", JS.VBool false);
    ("browser.uitour.enabled", JS.VBool false);
    ("browser.urlbar.suggest.searches", JS.VBool false);
    ("browser.usedOnWindows10.introURL", JS.VStr EmptyString);
    ("browser.warnOnQuit", JS.VBool false);
    ("datareporting.healthreport.about.reportUrl", JS.VStr ("http://" +:+ DUMMY_UMA_SERVER +:+ "/dummy/abouthealthreport/"));
    ("datareporting.healthreport.documentServerURI", JS.VStr ("http://" +:+ DUMMY_UMA_SERVER +:+ "/dummy/healthreport/"));
    ("datareporting.healthreport.logging.consoleEnabled", JS.VBool false);
    ("datareporting.healthreport.service.enabled", JS.VBool false);
    ("datareporting.healthreport.service.firstRun", JS.VBool false);
    ("datareporting.healthreport.uploadEnabled", JS.VBool false);
    ("datareporting.policy.dataSubmissionEnabled", JS.VBool false);
    ("datareporting.policy.dataSubmissionPolicyAccepted", JS.VBool false);
    ("datareporting.policy.dataSubmissionPolicyBypassNotification", JS.VBool true);
    ("devtools.jsonview.enabled", JS.VBool false);
    ("dom.disable_open_during_load", JS.VBool false);
    ("dom.file.createInChild", JS.VBool true);
    ("dom.ipc.reportProcessHangs", JS.VBool false);
    ("dom.max_chrome_script_run_time", JS.VNum (0));
    ("dom.max_script_run_time", JS.VNum (0));
    ("extensions.autoDisableScopes", JS.VNum (0));
    ("extensions.enabledScopes", JS.VNum (5));
    ("extensions.getAddons.cache.enabled", JS.VBool false);
    ("extensions.installDistroAddons", JS.VBool false);
    ("extensions.screenshots.disabled", JS.VBool true);
    ("extensions.update.enabled", JS.VBool false);
    ("extensions.update.notifyUser", JS.VBool false);
    ("extensions.webservice.discoverURL", JS.VStr ("http://" +:+ DUMMY_UMA_SERVER +:+ "/dummy/discoveryURL"));
    ("focusmanager.testmode", JS.VBool true);
    ("general.useragent.updates.enabled", JS.VBool false);
    ("geo.provider.testing", JS.VBool true);
    ("geo.wifi.scan", JS.VBool false);
    ("gfx.color_management.mode", JS.VNum (0));
    ("gfx.color_management.rendering_intent", JS.VNum (3));
    ("hangmonitor.timeout", JS.VNum (0));
    ("javascript.options.showInConsole", JS.VBool true);
    ("media.gmp-manager.updateEnabled", JS.VBool false);
    ("network.cookie.cookieBehavior", JS.VNum (0));
    ("network.http.prompt-temp-redirect", JS.VBool false);
    ("network.http.speculative-parallel-limit", JS.VNum (0));
    ("network.manage-offline-status", JS.VBool false);
    ("network.sntp.pools", JS.VStr DUMMY_UMA_SERVER);
    ("plugin.state.flash", JS.VNum (0));
    ("privacy.trackingprotection.enabled", JS.VBool false);
    ("remote.enabled", JS.VBool true);
    ("security.certerrors.mitm.priming.enabled", JS.VBool false);
    ("security.fileuri.strict_origin_policy", JS.VBool false);
    ("security.notification_enable_delay", JS.VNum (0));
    ("services.settings.server", JS.VStr ("http://" +:+ DUMMY_UMA_SERVER +:+ "/dummy/blocklist/"));
    ("browser.tabs.documentchannel", JS.VBool false);
    ("signon.autofillForms", JS.VBool false);
    ("signon.rememberSignons", JS.VBool false);
    ("startup.homepage_welcome_url", JS.VStr "about:blank");
    ("startup.homepage_welcome_url.additional", JS.VStr EmptyString);
    ("toolkit.cosmeticAnimations.enabled", JS.VBool false);
    ("toolkit.telemetry.server", JS.VStr ("https://" +:+ DUMMY_UMA_SERVER +:+ "/dummy/telemetry/"));
    ("toolkit.startup.max_resumed_crashes", JS.VNum (-1))
  ].

(** One line of user.js: the template literal of [populateProfile]. *)
Definition user_pref (entry : string * JS.value) : string :=
  "user_pref(" +:+ JS.stringify_string (fst entry) +:+ ", " +:+
  JS.stringify (snd entry) +:+ ");".

(** The arrays [userJS] and [prefsJS] when the loop of [populateProfile]
    has run. *)
Definition userJS : list string := map user_pref DEFAULT_PREFERENCES.
Definition prefsJS : list string := [].

(** ** The readiness pattern *)

(** A regular expression with no flags made of: the anchor to the start,
    a literal text, one capture group that holds a second literal text
    followed by any run of the any-character pattern, and the anchor to the
    end.  A line matches when it begins with the two literals and holds no
    line terminator after them; the group captures the line from the
    second literal on. *)
Record LineRegex : Type := {
  literal : string;
  group_literal : string;
}.

(** The pattern [.] without the s flag refuses line terminators (among the
    code units below 256: line feed and carriage return). *)
Definition is_line_terminator (c : ascii) : bool :=
  let n := N_of_ascii c in ((n =? 10) || (n =? 13))%N.

Fixpoint no_line_terminator (s : string) : bool :=
  match s with
  | EmptyString => true
  | String c rest => negb (is_line_terminator c) && no_line_terminator rest
  end.

Fixpoint strip_literal (lit s : string) : option string :=
  match lit with
  | EmptyString => Some s
  | String a lit' =>
      match s with
      | String b s' => if Ascii.eqb a b then strip_literal lit' s' else None
      | EmptyString => None
      end
  end.

(** [line.match(regex)]: element 0 (the whole match) and element 1 (the
    capture group) of the match array, or [None] for null. *)
Definition regex_match (regex : LineRegex) (line : string) : option (string * string) :=
  match strip_literal (literal regex) line with
  | Some rest =>
      match strip_literal (group_literal regex) rest with
      | Some tail => if no_line_terminator tail then Some (line, rest) else None
      | None => None
      end
  | None => None
  end.

(** The regular expression literal of [_launchServer]: the words
    Juggler listening on, a space, and a group that begins with ws:// *)
Definition juggler_regex : LineRegex :=
  {| literal := "Juggler listening on "; group_literal := "ws://" |}.

(** What a child process shows to the parent while the parent waits for a
    line: lines on its standard output, its exit, and the expiry of the
    timer.  The exit comes with the error that the wait then fails with:
    its text is the helper's, which is not among the sources. *)
Inductive output : Type :=
| Line (text : string)
| Exit (error : string)
| Timeout.

(** Modelled from the spec: [waitForLine] of processLauncher, which is not
    among the sources.  Section 4.3: it tests each line of the output
    against the pattern until a match is found and returns the captured
    groups at once; if the timeout elapses first it fails with the timeout
    error; if the process exits before a matching line it fails promptly
    (with an error the spec does not word).
    [None] is a wait that has not settled on the output so far. *)
Fixpoint waitForLine (regex : LineRegex) (timeoutError : string) (out : list output)
  : option (completion (string * string)) :=
  match out with
  | [] => None
  | Line text :: rest =>
      match regex_match regex text with
      | Some m => Some (Returned m)
      | None => waitForLine regex timeoutError rest
      end
  | Exit error :: _ => Some (Threw error)
  | Timeout :: _ => Some (Threw timeoutError)
  end.

(** ** Objects of the launch *)

Definition ChildProcess : Type := nat.

(** The literal passed to [launchProcess], without its two callbacks
    ([attemptToGracefullyClose] and [onkill] are definitions of their own
    below: they are the same closures at every launch). *)
Module LaunchProcessOptions.
Record t : Type := {
  executablePath : string;
  args : list string;
  env : gmap string string;
  handleSIGINT : bool;
  handleSIGTERM : bool;
  handleSIGHUP : bool;
  dumpio : bool;
  pipe : bool;
  tempDir : option string;
}.
End LaunchProcessOptions.

(** What [launchProcess] resolves to. [gracefullyClose] belongs to the
    launcher; the model keeps the process it closes. *)
Record LaunchResult : Type := {
  launchedProcess : ChildProcess;
  gracefullyClose : ChildProcess;
}.

Inductive LaunchType : Type := local_ | server_ | persistent_.

Definition is_server (t : LaunchType) : bool :=
  match t with server_ => true | _ => false end.

(** [new BrowserServer(process, gracefullyClose, wsEndpoint)] *)
Record BrowserServer : Type := {
  server_process : ChildProcess;
  server_gracefullyClose : ChildProcess;
  wsEndpoint : option string;
}.

(** [new platform.WebSocketTransport(url)] *)
Record WebSocketTransport : Type := {
  url : string;
}.

(** The object [_launchServer] resolves to. *)
Record Launched : Type := {
  browserServer : BrowserServer;
  transport : option WebSocketTransport;
}.

(** ** Asynchronous operations *)

(** The promise-returning calls the source awaits. *)
Inductive io : Type :=
| Mkdtemp (prefix : string)
| WriteFile (file data : string)
| LaunchProcess (o : LaunchProcessOptions.t)
| WaitForLine (process : ChildProcess) (regex : LineRegex) (timeout : Z)
    (timeoutError : string).

(** What the promise of each call resolves to. *)
Definition resolved (op : io) : Type :=
  match op with
  | Mkdtemp _ => string
  | WriteFile _ _ => unit
  | LaunchProcess _ => LaunchResult
  | WaitForLine _ _ _ _ => (string * string)%type
  end.

(** What the world answers to a pending call. *)
Inductive reply : Type :=
| Created (suffix : string)
| Written
| Spawned (r : LaunchResult)
| Observed (out : list output)
| Failed (reason : string).

(** How a pending call settles on an answer; [None] is an answer that the
    call cannot get.  [fs.mkdtemp] appends six characters to the prefix. *)
Definition settle (op : io) (r : reply) : option (completion (resolved op)) :=
  match op return option (completion (resolved op)) with
  | Mkdtemp prefix =>
      match r with
      | Created suffix =>
          if (String.length suffix =? 6)%nat then Some (Returned (prefix +:+ suffix)) else None
      | Failed e => Some (Threw e)
      | _ => None
      end
  | WriteFile _ _ =>
      match r with
      | Written => Some (Returned tt)
      | Failed e => Some (Threw e)
      | _ => None
      end
  | LaunchProcess _ =>
      match r with
      | Spawned p => Some (Returned p)
      | Failed e => Some (Threw e)
      | _ => None
      end
  | WaitForLine _ regex _ timeoutError =>
      match r with
      | Observed out => waitForLine regex timeoutError out
      | _ => None
      end
  end.

(** The constructor calls of [_launchServer]. *)
Inductive object : Type :=
| NewBrowserServer (s : BrowserServer)
| NewWebSocketTransport (t : WebSocketTransport).

(** What an observer of a launch sees, in order. *)
Inductive event : Type :=
| EvCall (op : io)                      (* the call is made, the promise pending *)
| EvDone (op : io) (r : reply)          (* the promise settles *)
| EvNew (o : object)                    (* an object is constructed *)
| EvSettled (r : completion Launched).  (* the promise of _launchServer settles *)

(** ** Asynchronous functions

    The body of an async function: it returns, throws, performs a
    synchronous step, awaits the promise of a call (where it is suspended
    until the promise settles), or calls another async function and drops
    the promise it gets. *)
Inductive task (A : Type) : Type :=
| Ret (a : A)
| Throw (message : string)
| Do (e : event) (k : task A)
| Await (op : io) (k : completion (resolved op) -> task A)
| Fork (child : task unit) (k : task A).
Arguments Ret {A} a.
Arguments Throw {A} message.
Arguments Do {A} e k.
Arguments Await {A} op k.
Arguments Fork {A} child k.

Fixpoint task_bind {A B} (f : A -> task B) (t : task A) : task B :=
  match t with
  | Ret a => f a
  | Throw m => Throw m
  | Do e k => Do e (task_bind f k)
  | Await op k => Await op (fun r => task_bind f (k r))
  | Fork child k => Fork child (task_bind f k)
  end.

#[export] Instance task_mret : MRet task := @Ret.
#[export] Instance task_mbind : MBind task := @task_bind.

(** [await f(...)] for a call [f(...)] of the library. *)
Definition await (op : io) : task (resolved op) :=
  Await op (fun r => match r with Returned v => Ret v | Threw m => Throw m end).

(** A synchronous call that may throw. *)
Definition lift {A} (c : completion A) : task A :=
  match c with Returned a => Ret a | Threw m => Throw m end.

(** [f(...)] for an async function [f] whose promise is not used. *)
Definition detached (child : task unit) : task unit := Fork child (Ret tt).

(** [new C(...)] *)
Definition new (o : object) : task unit := Do (EvNew o) (Ret tt).

(** ** The browser fetcher *)

(** The fields of a [Firefox] object. *)
Record Firefox : Type := {
  _projectRoot : string;
  _revision : string;
}.

(** [BrowserFetcherOptions]; [None] is a property that is absent. *)
Record BrowserFetcherOptions : Type := {
  fetcher_path : option string;
  fetcher_host : option string;
  fetcher_platform : option string;
}.

(** The object literal [downloadURLs] of [_createBrowserFetcher]. *)
Definition downloadURLs : list (string * string) :=
  [("linux", "%s/builds/firefox/%s/firefox-linux.zip");
   ("mac", "%s/builds/firefox/%s/firefox-mac.zip");
   ("win32", "%s/builds/firefox/%s/firefox-win32.zip");
   ("win64", "%s/builds/firefox/%s/firefox-win64.zip")].

(** The property names that every object literal inherits from
    [Object.prototype]; each of them holds a function or an object. *)
Definition Object_prototype : list string :=
  ["constructor"; "__defineGetter__"; "__defineSetter__"; "hasOwnProperty";
   "__lookupGetter__"; "__lookupSetter__"; "isPrototypeOf"; "propertyIsEnumerable";
   "toString"; "valueOf"; "__proto__"; "toLocaleString"].

(** What [object[name]] gives on an object literal with string values. *)
Inductive property : Type :=
| Own (value : string)
| Inherited
| Undefined.

Fixpoint own_property (o : list (string * string)) (name : string) : option string :=
  match o with
  | [] => None
  | (k, v) :: rest => if String.eqb k name then Some v else own_property rest name
  end.

Definition get_property (o : list (string * string)) (name : string) : property :=
  match own_property o name with
  | Some v => Own v
  | None => if JS.includes Object_prototype name then Inherited else Undefined
  end.

(** [!!value] of a property whose own values are non-empty strings or
    empty ones. *)
Definition property_truthy (p : property) : bool :=
  match p with
  | Own v => negb (String.eqb v "")
  | Inherited => true
  | Undefined => false
  end.

(** [util.format(template, ...args)] for a template whose only directives
    are %s and %% and for string arguments: each %s takes the next
    argument as it is, a %s without an argument stays, and arguments that
    are left over follow after a space each. *)
Fixpoint format (template : string) (args : list string) : string :=
  match template with
  | EmptyString => fold_left (fun acc a => acc +:+ " " +:+ a) args EmptyString
  | String c rest =>
      if Ascii.eqb c "%"%char then
        match rest with
        | String d rest' =>
            if Ascii.eqb d "s"%char then
              match args with
              | a :: args' => a +:+ format rest' args'
              | [] => String c (String d (format rest' []))
              end
            else if Ascii.eqb d "%"%char then String c (format rest' args)
            else String c (format rest args)
        | EmptyString => String c (format rest args)
        end
      else String c (format rest args)
  end.

(** The platform of the immediately invoked function in [defaultOptions],
    from [os.platform()] and [os.arch()]. *)
Definition default_platform (os_platform os_arch : string) : string :=
  if String.eqb os_platform "darwin" then "mac"
  else if String.eqb os_platform "linux" then "linux"
  else if String.eqb os_platform "win32" then
    (if String.eqb os_arch "x64" then "win64" else "win32")
  else os_platform.

(** What the function passed to [BrowserFetcher] returns.  [downloadUrl] is
    [None] where the template is not a string of [downloadURLs] (the
    formatting of other values is not modelled). *)
Record RevisionDescription : Type := {
  downloadUrl : option string;
  description_executablePath : string;
}.

(** [new BrowserFetcher(path, platform, revision, resolver)] *)
Record BrowserFetcher : Type := {
  downloadsFolder : string;
  fetcher_for : string;
  preferredRevision : string;
  resolver : string -> string -> RevisionDescription;
}.

(** The arrow function of [_createBrowserFetcher]; [path.join] of several
    segments joins them from the left. *)
Definition describe_revision (host : Host) (download_host : string)
    (platform revision : string) : RevisionDescription :=
  let executablePath :=
    if String.eqb platform "linux" then path_join host "firefox" "firefox"
    else if String.eqb platform "mac" then
      path_join host
        (path_join host (path_join host (path_join host "firefox" "Nightly.app") "Contents")
           "MacOS") "firefox"
    else if String.eqb platform "win32" || String.eqb platform "win64" then
      path_join host "firefox" "firefox.exe"
    else EmptyString in
  {| downloadUrl :=
       match get_property downloadURLs platform with
       | Own template => Some (format template [download_host; revision])
       | _ => None
       end;
     description_executablePath := executablePath |}.

(** [Firefox._createBrowserFetcher(options)], with [os.arch()] given. *)
Definition _createBrowserFetcher (this : Firefox) (host : Host) (os_arch : string)
    (options : BrowserFetcherOptions) : completion BrowserFetcher :=
  let path := default (path_join host (_projectRoot this) ".local-firefox") (fetcher_path options) in
  let download_host := default "https://playwright.azureedge.net" (fetcher_host options) in
  let platform := default (default_platform (os_platform host) os_arch) (fetcher_platform options) in
  if property_truthy (get_property downloadURLs platform) then
    Returned {| downloadsFolder := path;
                fetcher_for := platform;
                preferredRevision := _revision this;
                resolver := describe_revision host download_host |}
  else Threw ("Unsupported platform: " +:+ platform).

(** The object literal [{}] as [BrowserFetcherOptions]. *)
Definition no_fetcher_options : BrowserFetcherOptions :=
  {| fetcher_path := None; fetcher_host := None; fetcher_platform := None |}.

(** ** The launcher *)

Section Launcher.

Context (this : Firefox) (host : Host).

(** [populateProfile(profilePath)]: both writes are awaited, one after
    the other. *)
Definition populateProfile (profilePath : string) : task unit :=
  _ ← await (WriteFile (path_join host profilePath "user.js") (JS.join JS.LF userJS));
  await (WriteFile (path_join host profilePath "prefs.js") (JS.join JS.LF prefsJS)).

Definition missing_revision : string :=
  "Firefox revision is not downloaded. Run " +:+ JS.dquote +:+ "npm install" +:+ JS.dquote.

(** [Firefox._resolveExecutablePath()]: the pair of [executablePath] and
    [missingText], when the fetcher can be made. *)
Definition _resolveExecutablePath : completion (string * option string) :=
  match _createBrowserFetcher this host (os_arch host) no_fetcher_options with
  | Returned browserFetcher =>
      let revisionInfo := revisionInfo host in
      let missingText :=
        if negb (local revisionInfo) then Some missing_revision else None in
      Returned (revisionExecutablePath revisionInfo, missingText)
  | Threw message => Threw message
  end.

Definition timeout_message (timeout : Z) : string :=
  "Timed out after " +:+ JS.String_of_number timeout +:+
  " ms while trying to connect to Firefox!".

(** [Firefox._launchServer(options, connectionType, userDataDir, port)] *)
Definition _launchServer (options : LaunchOptions.t) (connectionType : LaunchType)
    (userDataDir : option string) (port : option Z) : task Launched :=
  let dumpio := default false (LaunchOptions.dumpio options) in
  let executablePath := LaunchOptions.executablePath options in
  let env := default (process_env host) (LaunchOptions.env options) in
  let handleSIGHUP := default true (LaunchOptions.handleSIGHUP options) in
  let handleSIGINT := default true (LaunchOptions.handleSIGINT options) in
  let handleSIGTERM := default true (LaunchOptions.handleSIGTERM options) in
  let timeout := default 30000 (LaunchOptions.timeout options) in
  (* if (!userDataDir) { userDataDir = await mkdtempAsync(...); temporaryProfileDir = userDataDir } *)
  '(userDataDir, temporaryProfileDir) ←
    match JS.truthy userDataDir with
    | None =>
        dir ← await (Mkdtemp (path_join host (os_tmpdir host) "playwright_dev_firefox_profile-"));
        mret (dir, Some dir)
    | Some dir => mret (dir, None)
    end;
  (* populateProfile(userDataDir!) -- the promise is dropped *)
  _ ← detached (populateProfile userDataDir);
  firefoxArguments ← lift (firefoxArguments options userDataDir port);
  firefoxExecutable ←
    match JS.truthy executablePath with
    | Some path => mret path
    | None =>
        '(executablePath, missingText) ← lift _resolveExecutablePath;
        match JS.truthy missingText with
        | Some text => Throw text
        | None => mret executablePath
        end
    end;
  launched ← await (LaunchProcess
    {| LaunchProcessOptions.executablePath := firefoxExecutable;
       LaunchProcessOptions.args := firefoxArguments;
       LaunchProcessOptions.env := launch_env host env firefoxExecutable;
       LaunchProcessOptions.handleSIGINT := handleSIGINT;
       LaunchProcessOptions.handleSIGTERM := handleSIGTERM;
       LaunchProcessOptions.handleSIGHUP := handleSIGHUP;
       LaunchProcessOptions.dumpio := dumpio;
       LaunchProcessOptions.pipe := false;
       LaunchProcessOptions.tempDir := JS.truthy temporaryProfileDir |});
  let timeoutError := timeout_message timeout in
  match_ ← await (WaitForLine (launchedProcess launched) juggler_regex timeout timeoutError);
  let browserWSEndpoint := snd match_ in
  let browserServer :=
    {| server_process := launchedProcess launched;
       server_gracefullyClose := gracefullyClose launched;
       wsEndpoint := if is_server connectionType then Some browserWSEndpoint else None |} in
  _ ← new (NewBrowserServer browserServer);
  if is_server connectionType then
    mret {| browserServer := browserServer; transport := None |}
  else
    let t := {| url := browserWSEndpoint |} in
    _ ← new (NewWebSocketTransport t);
    mret {| browserServer := browserServer; transport := Some t |}.

(** The caller of [_launchServer] awaits its promise: the caller sees how
    it settles. *)
Fixpoint observed (t : task Launched) : task unit :=
  match t with
  | Ret a => Do (EvSettled (Returned a)) (Ret tt)
  | Throw m => Do (EvSettled (Threw m)) (Ret tt)
  | Do e k => Do e (observed k)
  | Await op k => Await op (fun r => observed (k r))
  | Fork child k => Fork child (observed k)
  end.

(** A call of [_launchServer] whose promise is awaited, as [launch],
    [launchServer] and [launchPersistent] make it. *)
Definition call_launchServer (options : LaunchOptions.t) (connectionType : LaunchType)
    (userDataDir : option string) (port : option Z) : task unit :=
  observed (_launchServer options connectionType userDataDir port).

End Launcher.

(** ** The event loop

    A task runs until it ends or is suspended at an await; nothing else
    runs in between (run to completion).  A called async function runs to
    its own first await before its caller goes on.  The world then settles
    one of the pending promises, and the task that awaits it runs on. *)

Inductive suspended : Type :=
| Suspended (op : io) (k : completion (resolved op) -> task unit).

(** One synchronous run: the events it shows and the tasks it leaves
    suspended.  A task that is not awaited and throws leaves a rejected
    promise nobody looks at. *)
Fixpoint run (t : task unit) : list event * list suspended :=
  match t with
  | Ret _ => ([], [])
  | Throw _ => ([], [])
  | Do e k => let '(es, ss) := run k in (e :: es, ss)
  | Await op k => ([EvCall op], [Suspended op k])
  | Fork child k =>
      let '(es1, ss1) := run child in
      let '(es2, ss2) := run k in
      (es1 ++ es2, ss1 ++ ss2)
  end.

Record config : Type := {
  pending : list suspended;
  log : list event;
}.

Definition start (t : task unit) : config :=
  let '(es, ss) := run t in {| pending := ss; log := es |}.

(** The world settles the [i]-th pending promise with the answer [r]. *)
Definition resume (i : nat) (r : reply) (c : config) : option config :=
  match pending c !! i with
  | Some (Suspended op k) =>
      match settle op r with
      | Some v =>
          let '(es, ss) := run (k v) in
          Some {| pending := delete i (pending c) ++ ss;
                  log := log c ++ EvDone op r :: es |}
      | None => None
      end
  | None => None
  end.

(** A schedule is the order in which the world settles promises, with its
    answers. *)
Fixpoint exec (schedule : list (nat * reply)) (c : config) : option config :=
  match schedule with
  | [] => Some c
  | (i, r) :: rest =>
      match resume i r c with
      | Some c' => exec rest c'
      | None => None
      end
  end.

(** ** An example host *)

Fixpoint dirname_go (s acc : string) (found : option string) : option string :=
  match s with
  | EmptyString => found
  | String c rest =>
      dirname_go rest (acc +:+ String c EmptyString)
        (if Ascii.eqb c "/"%char then Some acc else found)
  end.

(** The text before the last slash, which is [path.dirname] on the
    absolute normalised paths of the examples. *)
Definition dirname (path : string) : string :=
  default "." (dirname_go path EmptyString None).

Definition linux_host : Host :=
  {| os_platform := "linux";
     os_arch := "x64";
     os_tmpdir := "/tmp";
     process_env := {[ "HOME" := "/root" ]};
     path_join := fun a b => a +:+ "/" +:+ b;
     path_dirname := dirname;
     revisionInfo := {| local := true; revisionExecutablePath := "/pw/firefox/firefox" |} |}.

(** A [Firefox] object. *)
Definition a_firefox : Firefox :=
  {| _projectRoot := "/pw"; _revision := "1021" |}.

(** * Definitions used to state the properties *)

(** The arguments [_defaultArgs] puts before the caller's. *)
Definition leading_args (options : LaunchOptions.t) (userDataDir : string) (port : Z)
  : list string :=
  let devtools := default false (LaunchOptions.devtools options) in
  let headless := default (negb devtools) (LaunchOptions.headless options) in
  ["-no-remote"; if headless then "-headless" else "-wait-for-browser";
   "-profile"; userDataDir; "-juggler"; JS.String_of_number port].

(** The three refusals of [_defaultArgs]. *)
Definition refused (options : LaunchOptions.t) : bool :=
  let args := default [] (LaunchOptions.args options) in
  default false (LaunchOptions.devtools options)
  || existsb is_profile_arg args || existsb is_juggler_arg args.

Definition refusal (options : LaunchOptions.t) : string :=
  let args := default [] (LaunchOptions.args options) in
  if default false (LaunchOptions.devtools options) then devtools_error
  else if existsb is_profile_arg args then profile_error
  else juggler_error.

Definition flags_only : LaunchOptions.t :=
  {| LaunchOptions.ignoreDefaultArgs := None;
     LaunchOptions.args := Some ["-foo"; "--bar=1"];
     LaunchOptions.dumpio := None; LaunchOptions.executablePath := None;
     LaunchOptions.env := None; LaunchOptions.handleSIGHUP := None;
     LaunchOptions.handleSIGINT := None; LaunchOptions.handleSIGTERM := None;
     LaunchOptions.timeout := None; LaunchOptions.devtools := None;
     LaunchOptions.headless := None |}.

(** ** Properties of every event of a launch

    [safe P h t] says that every event the task [t] can show satisfies
    [P], whatever the world answers, where [P] is given the events that
    the task itself (and the caller that called it) has shown before. *)
Fixpoint safe (P : list event -> event -> Prop) (h : list event) (t : task unit) : Prop :=
  match t with
  | Ret _ => True
  | Throw _ => True
  | Do e k => P h e /\ safe P (h ++ [e]) k
  | Await op k =>
      P h (EvCall op) /\
      forall r v, settle op r = Some v ->
        P (h ++ [EvCall op]) (EvDone op r) /\
        safe P (h ++ [EvCall op; EvDone op r]) (k v)
  | Fork child k => safe P h child /\ safe P h k
  end.

(** Every event of [ext], which comes after the events [l], satisfies [P]
    on the events before it. *)
Definition ext_ok (P : list event -> event -> Prop) (l ext : list event) : Prop :=
  forall pre e post, ext = pre ++ e :: post -> P (l ++ pre) e.

(** A suspended task whose own past is part of the log [l] and whose
    future is safe. *)
Definition suspended_ok (P : list event -> event -> Prop) (l : list event)
    (s : suspended) : Prop :=
  match s with
  | Suspended op k =>
      exists h, sublist h l /\
        forall r v, settle op r = Some v ->
          P h (EvDone op r) /\ safe P (h ++ [EvDone op r]) (k v)
  end.

(** [P] keeps holding when more events are known to have happened. *)
Definition monotone (P : list event -> event -> Prop) : Prop :=
  forall h h' e, sublist h h' -> P h e -> P h' e.

(** The part of a task after its first await is safe for a property of
    single events: what the task shows before it is first suspended is not
    looked at. *)
Fixpoint safe_later (P : event -> Prop) (t : task unit) : Prop :=
  match t with
  | Ret _ => True
  | Throw _ => True
  | Do e k => safe_later P k
  | Await op k =>
      forall r v, settle op r = Some v ->
        P (EvDone op r) /\ safe (fun _ => P) [EvDone op r] (k v)
  | Fork child k => safe_later P child /\ safe_later P k
  end.

(** The log of [c] is [l] and then events that satisfy [P], and the
    pending tasks of [c] have a safe future. *)
Definition config_ok (P : list event -> event -> Prop) (l : list event) (c : config) : Prop :=
  (exists ext, log c = l ++ ext /\ ext_ok P l ext) /\
  Forall (suspended_ok P (log c)) (pending c).

(** An event that hands the endpoint or the transport out: a constructor
    call of [_launchServer], or its promise resolving. *)
Definition exposes (e : event) : Prop :=
  match e with
  | EvNew _ => True
  | EvSettled (Returned _) => True
  | _ => False
  end.

(** The wait for the readiness line has settled on a match. *)
Definition readiness_matched (h : list event) : Prop :=
  exists process timeout timeoutError out m,
    In (EvDone (WaitForLine process juggler_regex timeout timeoutError) (Observed out)) h /\
    waitForLine juggler_regex timeoutError out = Some (Returned m).

Definition after_readiness (h : list event) (e : event) : Prop :=
  exposes e -> readiness_matched h.

(** ** Reading the profile file back *)

(** The lines of a text: its pieces between line feeds. *)
Fixpoint lines_go (s line : string) : list string :=
  match s with
  | EmptyString => [line]
  | String c rest =>
      if (N_of_ascii c =? 10)%N then line :: lines_go rest EmptyString
      else lines_go rest (line +:+ String c EmptyString)
  end.

Definition lines (s : string) : list string := lines_go s EmptyString.

Definition hex_value (c : ascii) : option N :=
  let n := N_of_ascii c in
  if ((48 <=? n) && (n <=? 57))%N then Some (n - 48)%N
  else if ((97 <=? n) && (n <=? 102))%N then Some (n - 87)%N
  else None.

(** The characters of a JSON string literal after its opening quote: the
    text it denotes and what follows the closing quote. *)
Fixpoint read_string (fuel : nat) (s acc : string) : option (string * string) :=
  match fuel with
  | O => None
  | S fuel =>
      match s with
      | EmptyString => None
      | String c rest =>
          if (N_of_ascii c =? 34)%N then Some (acc, rest)
          else if (N_of_ascii c =? 92)%N then
            match rest with
            | String e rest' =>
                let plain (x : N) := read_string fuel rest' (acc +:+ String (ascii_of_N x) EmptyString) in
                match N_of_ascii e with
                | 34%N => plain 34%N
                | 92%N => plain 92%N
                | 98%N => plain 8%N
                | 102%N => plain 12%N
                | 110%N => plain 10%N
                | 114%N => plain 13%N
                | 116%N => plain 9%N
                | 117%N =>
                    match rest' with
                    | String a (String b (String h (String l rest''))) =>
                        match hex_value a, hex_value b, hex_value h, hex_value l with
                        | Some 0%N, Some 0%N, Some x, Some y =>
                            read_string fuel rest''
                              (acc +:+ String (ascii_of_N (16 * x + y)) EmptyString)
                        | _, _, _, _ => None
                        end
                    | _ => None
                    end
                | _ => None
                end
            | EmptyString => None
            end
          else read_string fuel rest (acc +:+ String c EmptyString)
      end
  end.

Fixpoint read_digits (s : string) (acc : Z) : Z * string :=
  match s with
  | String c rest =>
      let n := N_of_ascii c in
      if ((48 <=? n) && (n <=? 57))%N then read_digits rest (10 * acc + Z.of_N (n - 48))
      else (acc, s)
  | EmptyString => (acc, s)
  end.

(** A JSON value of the three kinds of the table, and what follows it. *)
Definition read_value (s : string) : option (JS.value * string) :=
  match strip_literal "true" s, strip_literal "false" s with
  | Some rest, _ => Some (JS.VBool true, rest)
  | _, Some rest => Some (JS.VBool false, rest)
  | None, None =>
      match s with
      | String c rest =>
          if (N_of_ascii c =? 34)%N then
            match read_string (String.length s) rest EmptyString with
            | Some (text, rest') => Some (JS.VStr text, rest')
            | None => None
            end
          else if (N_of_ascii c =? 45)%N then
            let '(n, rest') := read_digits rest 0 in Some (JS.VNum (- n), rest')
          else
            let '(n, rest') := read_digits s 0 in
            if String.eqb rest' s then None else Some (JS.VNum n, rest')
      | EmptyString => None
      end
  end.

(** The key and the value that a statement of user.js sets. *)
Definition read_user_pref (statement : string) : option (string * JS.value) :=
  match strip_literal "user_pref(" statement with
  | Some rest =>
      match read_value rest with
      | Some (JS.VStr key, rest1) =>
          match strip_literal ", " rest1 with
          | Some rest2 =>
              match read_value rest2 with
              | Some (v, ");") => Some (key, v)
              | _ => None
              end
          | None => None
          end
      | _ => None
      end
  | None => None
  end.

(** ** Statements about launches *)

(** Options that set the properties the examples vary and leave the others
    out. *)
Definition options_with (ignoreDefaultArgs : option IgnoreDefaultArgs)
    (args : option (list string)) (devtools : option bool)
    (executablePath : option string) : LaunchOptions.t :=
  {| LaunchOptions.ignoreDefaultArgs := ignoreDefaultArgs;
     LaunchOptions.args := args;
     LaunchOptions.dumpio := None;
     LaunchOptions.executablePath := executablePath;
     LaunchOptions.env := None;
     LaunchOptions.handleSIGHUP := None;
     LaunchOptions.handleSIGINT := None;
     LaunchOptions.handleSIGTERM := None;
     LaunchOptions.timeout := None;
     LaunchOptions.devtools := devtools;
     LaunchOptions.headless := None |}.

Definition a_process : LaunchResult :=
  {| launchedProcess := 4242%nat; gracefullyClose := 4242%nat |}.

(** Output that settles nothing: lines that the pattern refuses. *)
Definition quiet (before : list output) : Prop :=
  Forall (fun o => exists text, o = Line text /\ regex_match juggler_regex text = None) before.

(** What the caller gets holds the endpoint: on the server in server mode,
    in the transport otherwise. *)
Definition hands_out (connectionType : LaunchType) (endpoint : string)
    (launched : Launched) : Prop :=
  wsEndpoint (browserServer launched) =
    (if is_server connectionType then Some endpoint else None) /\
  transport launched =
    (if is_server connectionType then None else Some {| url := endpoint |}).

Definition endpoint_announced (connectionType : LaunchType) (h : list event)
    (e : event) : Prop :=
  forall launched, e = EvSettled (Returned launched) ->
    exists process timeout timeoutError out line endpoint,
      In (EvDone (WaitForLine process juggler_regex timeout timeoutError) (Observed out)) h /\
      waitForLine juggler_regex timeoutError out = Some (Returned (line, endpoint)) /\
      hands_out connectionType endpoint launched.

(** [ignoreDefaultArgs] is not the value true: the arguments go through
    [_defaultArgs]. *)
Definition validates (options : LaunchOptions.t) : bool :=
  match default (IgnoreAll false) (LaunchOptions.ignoreDefaultArgs options) with
  | IgnoreAll true => false
  | _ => true
  end.

(** The launcher is called, or the launch resolves. *)
Definition spawns (e : event) : Prop :=
  match e with
  | EvCall (LaunchProcess _) => True
  | EvSettled (Returned _) => True
  | _ => False
  end.

Definition never_spawns (h : list event) (e : event) : Prop := ~ spawns e.

Definition is_launch_call (e : event) : Prop :=
  match e with
  | EvCall (LaunchProcess _) => True
  | _ => False
  end.

Definition no_launch_call (h : list event) (e : event) : Prop := ~ is_launch_call e.

(** An event of a write to a file: its start or its end. *)
Definition is_write (e : event) : bool :=
  match e with
  | EvCall (WriteFile _ _) => true
  | EvDone (WriteFile _ _) _ => true
  | _ => false
  end.

(** The directory the launcher is told to remove: none when the caller
    gave a profile directory, the directory [fs.mkdtemp] made otherwise. *)
Definition registered (userDataDir : option string) (h : list event) (e : event) : Prop :=
  forall o, e = EvCall (LaunchProcess o) ->
    match JS.truthy userDataDir with
    | Some _ => LaunchProcessOptions.tempDir o = None
    | None =>
        exists prefix suffix,
          In (EvDone (Mkdtemp prefix) (Created suffix)) h /\
          LaunchProcessOptions.tempDir o = Some (prefix +:+ suffix)
    end.

Definition passes_args (args : list string) (h : list event) (e : event) : Prop :=
  forall o, e = EvCall (LaunchProcess o) -> LaunchProcessOptions.args o = args.

(** A schedule on which a launch with a profile directory of the caller
    gets ready: the process is spawned and announces its endpoint. *)
Definition ready_schedule : list (nat * reply) :=
  [(1%nat, Spawned a_process);
   (1%nat, Observed [Line "Juggler listening on ws://127.0.0.1:9222/abc"])].

Definition ready_server : BrowserServer :=
  {| server_process := 4242%nat; server_gracefullyClose := 4242%nat;
     wsEndpoint := Some "ws://127.0.0.1:9222/abc" |}.

(** The launcher is called somewhere in a log. *)
Definition launcher_called (l : list event) : bool :=
  existsb (fun e => match e with EvCall (LaunchProcess _) => true | _ => false end) l.

(** A devtools request and nothing else. *)
Definition devtools_options : LaunchOptions.t :=
  options_with None None (Some true) None.

(** A devtools request, a profile argument and a juggler argument, with
    [ignoreDefaultArgs] set to true. *)
Definition unchecked_options : LaunchOptions.t :=
  options_with (Some (IgnoreAll true)) (Some ["-profile"; "/mine"; "-juggler"; "9"])
    (Some true) (Some "/usr/bin/firefox").

(** What the launcher is called with on the example host when nothing is
    given and [fs.mkdtemp] makes the directory that ends in abcdef. *)
Definition temporary_launch : LaunchProcessOptions.t :=
  {| LaunchProcessOptions.executablePath := "/pw/firefox/firefox";
     LaunchProcessOptions.args :=
       ["-no-remote"; "-headless"; "-profile"; "/tmp/playwright_dev_firefox_profile-abcdef";
        "-juggler"; "0"; "about:blank"];
     LaunchProcessOptions.env :=
       launch_env linux_host (process_env linux_host) "/pw/firefox/firefox";
     LaunchProcessOptions.handleSIGINT := true;
     LaunchProcessOptions.handleSIGTERM := true;
     LaunchProcessOptions.handleSIGHUP := true;
     LaunchProcessOptions.dumpio := false;
     LaunchProcessOptions.pipe := false;
     LaunchProcessOptions.tempDir := Some "/tmp/playwright_dev_firefox_profile-abcdef" |}.

(** What the launcher is called with on the example host when the caller
    gives the profile directory [/profile] and nothing else. *)
Definition profile_launch : LaunchProcessOptions.t :=
  {| LaunchProcessOptions.executablePath := "/pw/firefox/firefox";
     LaunchProcessOptions.args :=
       ["-no-remote"; "-headless"; "-profile"; "/profile"; "-juggler"; "0"; "about:blank"];
     LaunchProcessOptions.env :=
       launch_env linux_host (process_env linux_host) "/pw/firefox/firefox";
     LaunchProcessOptions.handleSIGINT := true;
     LaunchProcessOptions.handleSIGTERM := true;
     LaunchProcessOptions.handleSIGHUP := true;
     LaunchProcessOptions.dumpio := false;
     LaunchProcessOptions.pipe := false;
     LaunchProcessOptions.tempDir := None |}.

(** An environment of the caller that sets the library search path and one
    more variable. *)
Definition caller_env : gmap string string :=
  <[ "LD_LIBRARY_PATH" := "/opt/lib" ]> {[ "FOO" := "bar" ]}.

Definition caller_env_options : LaunchOptions.t :=
  {| LaunchOptions.ignoreDefaultArgs := None;
     LaunchOptions.args := None;
     LaunchOptions.dumpio := None;
     LaunchOptions.executablePath := None;
     LaunchOptions.env := Some caller_env;
     LaunchOptions.handleSIGHUP := None;
     LaunchOptions.handleSIGINT := None;
     LaunchOptions.handleSIGTERM := None;
     LaunchOptions.timeout := None;
     LaunchOptions.devtools := None;
     LaunchOptions.headless := None |}.

(** The environment of the launcher call in a log, if there is one. *)
Definition launched_env (l : list event) : option (gmap string string) :=
  match List.filter (fun e => match e with EvCall (LaunchProcess _) => true | _ => false end) l with
  | EvCall (LaunchProcess o) :: _ => Some (LaunchProcessOptions.env o)
  | _ => None
  end.

(** ** The exit notification *)

Module Supervisor.

(** [browserServer.emit(Events.BrowserServer.Close, exitCode, signal)] *)
Record notification : Type := {
  emitter : BrowserServer;
  exitCode : option Z;
  signal : option string;
}.

(** The callback [onkill] of [_launchServer].  It reads the variable
    [browserServer] of the launch, which is undefined until the readiness
    line has been matched. *)
Definition onkill (browserServer : option BrowserServer) (exitCode : option Z)
    (signal : option string) : list notification :=
  match browserServer with
  | Some server => [{| emitter := server; exitCode := exitCode; signal := signal |}]
  | None => []
  end.

(** The text of the message [{ method: 'Browser.close', params: {}, id }]. *)
Definition close_message (id : Z) : string :=
  "{" +:+ JS.stringify_string "method" +:+ ":" +:+ JS.stringify_string "Browser.close" +:+
  "," +:+ JS.stringify_string "params" +:+ ":{}," +:+
  JS.stringify_string "id" +:+ ":" +:+ JS.String_of_number id +:+ "}".

(** The callback [attemptToGracefullyClose] of [_launchServer]: a rejected
    promise while [browserServer] is undefined, and otherwise the close
    message sent over a new transport to the endpoint. *)
Definition attemptToGracefullyClose (kBrowserCloseMessageId : Z)
    (browserServer : option BrowserServer) (browserWSEndpoint : string)
  : completion (WebSocketTransport * string) :=
  match browserServer with
  | None => Threw "undefined"
  | Some _ => Returned ({| url := browserWSEndpoint |}, close_message kBrowserCloseMessageId)
  end.

Inductive phase : Type := Running | ClosingGracefully | Exited.

(** A launched process with the variables of its launch. *)
Record state : Type := {
  server : option BrowserServer;
  endpoint : string;
  current : phase;
  notified : list notification;
  sent : list (WebSocketTransport * string);
  killed : bool;
}.

Definition launched : state :=
  {| server := None; endpoint := EmptyString; current := Running;
     notified := []; sent := []; killed := false |}.

(** What happens to a launched process. *)
Inductive stimulus : Type :=
| Ready (browserWSEndpoint : string) (s : BrowserServer)
    (* the readiness line is matched: the two assignments of _launchServer *)
| Close                 (* the caller calls close() *)
| Kill                  (* the caller calls kill() *)
| ProcessExit (exitCode : option Z) (signal : option string).
    (* the operating system reports that the child is gone *)

(** Modelled from the spec: the launcher and the supervisor (processLauncher
    and browserServer), which are not among the sources.  Sections 4.2 and
    4.5: the exit callback fires on the edge from Running or
    ClosingGracefully to Exited, once, whatever caused the exit; close()
    returns at once after the exit and otherwise asks for a graceful
    shutdown once, falling back to a kill when the request cannot be made;
    kill() only signals the process.  The callbacks it calls are those of
    the source. *)
Definition step (kBrowserCloseMessageId : Z) (st : state) (s : stimulus) : state :=
  match s with
  | Ready browserWSEndpoint srv =>
      {| server := Some srv; endpoint := browserWSEndpoint; current := current st;
         notified := notified st; sent := sent st; killed := killed st |}
  | Close =>
      match current st with
      | Running =>
          match attemptToGracefullyClose kBrowserCloseMessageId (server st) (endpoint st) with
          | Returned message =>
              {| server := server st; endpoint := endpoint st;
                 current := ClosingGracefully; notified := notified st;
                 sent := sent st ++ [message]; killed := killed st |}
          | Threw _ =>
              {| server := server st; endpoint := endpoint st;
                 current := ClosingGracefully; notified := notified st;
                 sent := sent st; killed := true |}
          end
      | _ => st
      end
  | Kill =>
      match current st with
      | Exited => st
      | _ =>
          {| server := server st; endpoint := endpoint st; current := current st;
             notified := notified st; sent := sent st; killed := true |}
      end
  | ProcessExit exitCode signal =>
      match current st with
      | Exited => st
      | _ =>
          {| server := server st; endpoint := endpoint st; current := Exited;
             notified := notified st ++ onkill (server st) exitCode signal;
             sent := sent st; killed := killed st |}
      end
  end.

Definition steps (kBrowserCloseMessageId : Z) (st : state) (l : list stimulus) : state :=
  fold_left (step kBrowserCloseMessageId) l st.

Definition is_exit (s : stimulus) : bool :=
  match s with ProcessExit _ _ => true | _ => false end.

(** The server that the variable [browserServer] holds after the stimuli
    [l], when it held [init] before. *)
Definition server_after (init : option BrowserServer) (l : list stimulus)
  : option BrowserServer :=
  fold_left (fun acc s => match s with Ready _ srv => Some srv | _ => acc end) l init.

Definition a_server : BrowserServer :=
  {| server_process := 4242%nat; server_gracefullyClose := 4242%nat;
     wsEndpoint := None |}.

End Supervisor.

(** ** The rest of the class *)

(** [Firefox.executablePath()] *)
Definition Firefox_executablePath (this : Firefox) (host : Host) : completion string :=
  completion_map fst (_resolveExecutablePath this host).

(** ** Statements about the call of the launcher *)

(** The object literal that [_launchServer] passes to [launchProcess], for
    the executable, the arguments and the temporary directory it has
    arrived at. *)
Definition launcher_options (host : Host) (options : LaunchOptions.t)
    (firefoxExecutable : string) (firefoxArguments : list string)
    (temporaryProfileDir : option string) : LaunchProcessOptions.t :=
  {| LaunchProcessOptions.executablePath := firefoxExecutable;
     LaunchProcessOptions.args := firefoxArguments;
     LaunchProcessOptions.env :=
       launch_env host (default (process_env host) (LaunchOptions.env options))
         firefoxExecutable;
     LaunchProcessOptions.handleSIGINT := default true (LaunchOptions.handleSIGINT options);
     LaunchProcessOptions.handleSIGTERM := default true (LaunchOptions.handleSIGTERM options);
     LaunchProcessOptions.handleSIGHUP := default true (LaunchOptions.handleSIGHUP options);
     LaunchProcessOptions.dumpio := default false (LaunchOptions.dumpio options);
     LaunchProcessOptions.pipe := false;
     LaunchProcessOptions.tempDir := temporaryProfileDir |}.

(** The executable a launch uses: the one of the options when they name
    one, and otherwise the one of the downloaded revision, which then has
    to be there, as [Firefox.executablePath()] returns it. *)
Definition resolved_executable (this : Firefox) (host : Host) (options : LaunchOptions.t)
    (firefoxExecutable : string) : Prop :=
  match JS.truthy (LaunchOptions.executablePath options) with
  | Some path => firefoxExecutable = path
  | None =>
      local (revisionInfo host) = true /\
      Firefox_executablePath this host = Returned firefoxExecutable
  end.

(** The profile directory of a launch: the one of the caller, or the one
    that [fs.mkdtemp] has made, as the events [pre] show. *)
Definition profile_directory (host : Host) (userDataDir : option string)
    (pre : list event) (dir : string) : Prop :=
  match JS.truthy userDataDir with
  | Some given => dir = given
  | None =>
      exists suffix,
        In (EvDone (Mkdtemp (path_join host (os_tmpdir host) "playwright_dev_firefox_profile-"))
              (Created suffix)) pre /\
        dir = path_join host (os_tmpdir host) "playwright_dev_firefox_profile-" +:+ suffix
  end.

(** The value of [temporaryProfileDir] for a profile directory. *)
Definition temporary_of (userDataDir : option string) (dir : string) : option string :=
  match JS.truthy userDataDir with
  | Some _ => None
  | None => Some dir
  end.

(** [ignoreDefaultArgs] is absent or false: the arguments are those of
    [_defaultArgs] as they are. *)
Definition takes_defaults (options : LaunchOptions.t) : bool :=
  match default (IgnoreAll false) (LaunchOptions.ignoreDefaultArgs options) with
  | IgnoreAll false => true
  | _ => false
  end.

(** A host like the example host whose revision is not downloaded. *)
Definition bare_host : Host :=
  {| os_platform := "linux";
     os_arch := "x64";
     os_tmpdir := "/tmp";
     process_env := {[ "LD_LIBRARY_PATH" := "/usr/lib" ]};
     path_join := fun a b => a +:+ "/" +:+ b;
     path_dirname := dirname;
     revisionInfo := {| local := false; revisionExecutablePath := "/pw/firefox/firefox" |} |}.

(** A host on a platform that the fetcher has no build for, with no
    revision. *)
Definition freebsd_host : Host :=
  {| os_platform := "freebsd";
     os_arch := "x64";
     os_tmpdir := "/tmp";
     process_env := {[ "HOME" := "/root" ]};
     path_join := fun a b => a +:+ "/" +:+ b;
     path_dirname := dirname;
     revisionInfo := {| local := false; revisionExecutablePath := "" |} |}.

(** A host that is not a Linux host. *)
Definition mac_host : Host :=
  {| os_platform := "darwin";
     os_arch := "x64";
     os_tmpdir := "/tmp";
     process_env := {[ "HOME" := "/Users/me" ]};
     path_join := fun a b => a +:+ "/" +:+ b;
     path_dirname := dirname;
     revisionInfo := {| local := true; revisionExecutablePath := "/pw/firefox/firefox" |} |}.

(** The example host with a library search path of its own. *)
Definition library_host : Host :=
  {| os_platform := "linux";
     os_arch := "x64";
     os_tmpdir := "/tmp";
     process_env := {[ "LD_LIBRARY_PATH" := "/usr/lib" ]};
     path_join := fun a b => a +:+ "/" +:+ b;
     path_dirname := dirname;
     revisionInfo := {| local := true; revisionExecutablePath := "/pw/firefox/firefox" |} |}.

(** What the launcher is called with on the host with a library search
    path, for the profile directory [/profile] of the caller. *)
Definition library_launch : LaunchProcessOptions.t :=
  launcher_options library_host LaunchOptions.empty "/pw/firefox/firefox"
    ["-no-remote"; "-headless"; "-profile"; "/profile"; "-juggler"; "0"; "about:blank"]
    None.

(** ** Statements about every event of a launch *)

(** Where a rejection of a launch comes from: the failure of [fs.mkdtemp],
    a refusal of the arguments, the fetcher that cannot be made for the
    platform of the host, the missing revision, the failure of the
    launcher, or the failure of the wait for the readiness line (the
    timeout with its message, or the exit of the process with the error
    that comes with it). *)
Definition rejection_cause (this : Firefox) (host : Host) (options : LaunchOptions.t)
    (h : list event) (e : event) : Prop :=
  forall m, e = EvSettled (Threw m) ->
    (exists prefix, In (EvDone (Mkdtemp prefix) (Failed m)) h) \/
    (validates options = true /\ refused options = true /\ m = refusal options) \/
    (JS.truthy (LaunchOptions.executablePath options) = None /\
     _createBrowserFetcher this host (os_arch host) no_fetcher_options = Threw m) \/
    (JS.truthy (LaunchOptions.executablePath options) = None /\
     (exists fetcher,
        _createBrowserFetcher this host (os_arch host) no_fetcher_options = Returned fetcher) /\
     local (revisionInfo host) = false /\ m = missing_revision) \/
    (exists o, In (EvDone (LaunchProcess o) (Failed m)) h) \/
    (exists process out,
       In (EvDone (WaitForLine process juggler_regex
                     (default 30000 (LaunchOptions.timeout options))
                     (timeout_message (default 30000 (LaunchOptions.timeout options))))
             (Observed out)) h /\
       (m = timeout_message (default 30000 (LaunchOptions.timeout options)) \/
        In (Exit m) out)).

(** The writes of a launch: user.js with the statements, and prefs.js,
    empty, into the same directory and only when the write of user.js has
    succeeded. *)
Definition profile_write (host : Host) (h : list event) (e : event) : Prop :=
  forall file data, e = EvCall (WriteFile file data) ->
    exists dir,
      (file = path_join host dir "user.js" /\ data = JS.join JS.LF userJS) \/
      (file = path_join host dir "prefs.js" /\ data = EmptyString /\
       In (EvDone (WriteFile (path_join host dir "user.js") (JS.join JS.LF userJS)) Written) h).

(** What a launch constructs and waits for: a transport only outside the
    server mode, a server with the endpoint only in the server mode, the
    server on the process and the close function that the launcher has
    returned, and the wait on that same process. *)
Definition uses_spawned_process (connectionType : LaunchType) (h : list event)
    (e : event) : Prop :=
  match e with
  | EvNew (NewWebSocketTransport _) => is_server connectionType = false
  | EvNew (NewBrowserServer s) =>
      (is_server connectionType = false -> wsEndpoint s = None) /\
      exists o r,
        In (EvDone (LaunchProcess o) (Spawned r)) h /\
        server_process s = launchedProcess r /\
        server_gracefullyClose s = gracefullyClose r
  | EvCall (WaitForLine process _ _ _) =>
      exists o r,
        In (EvDone (LaunchProcess o) (Spawned r)) h /\ process = launchedProcess r
  | _ => True
  end.

(** A schedule on which the launcher spawns and the wait runs into the
    timeout. *)
Definition timeout_schedule : list (nat * reply) :=
  [(1%nat, Spawned a_process); (1%nat, Observed [Line "starting"; Timeout])].

(** A schedule on which both writes of the profile end before the process
    is spawned. *)
Definition written_schedule : list (nat * reply) :=
  [(0%nat, Written); (1%nat, Written)].

(** Options that deny two of the default arguments. *)
Definition denying_options : LaunchOptions.t :=
  options_with (Some (IgnoreThese ["-headless"; "about:blank"])) (Some ["-foo"]) None None.

(** Options that ask for a window. *)
Definition headful_options : LaunchOptions.t :=
  {| LaunchOptions.ignoreDefaultArgs := None;
     LaunchOptions.args := None;
     LaunchOptions.dumpio := None;
     LaunchOptions.executablePath := None;
     LaunchOptions.env := None;
     LaunchOptions.handleSIGHUP := None;
     LaunchOptions.handleSIGINT := None;
     LaunchOptions.handleSIGTERM := None;
     LaunchOptions.timeout := None;
     LaunchOptions.devtools := Some false;
     LaunchOptions.headless := Some false |}.

(** The platforms that [downloadURLs] has a template for. *)
Definition supported_platforms : list string := ["linux"; "mac"; "win32"; "win64"].

(** Fetcher options that name a host of their own. *)
Definition mirror_options : BrowserFetcherOptions :=
  {| fetcher_path := None;
     fetcher_host := Some "https://mirror.example";
     fetcher_platform := None |}.

(** Fetcher options whose platform is a name that every object inherits. *)
Definition inherited_platform_options : BrowserFetcherOptions :=
  {| fetcher_path := None; fetcher_host := None; fetcher_platform := Some "toString" |}.

(** * Properties *)

(** ** Strings *)

Lemma strip_literal_Some lit s rest :
  strip_literal lit s = Some rest <-> s = lit +:+ rest.
Proof.
  revert s; induction lit as [|a lit IH]; intros s; simpl.
  - split; [intros [= ->]|intros ->]; reflexivity.
  - destruct s as [|b s]; [split; discriminate|].
    destruct (Ascii.eqb_spec a b) as [->|Hne].
    + rewrite IH. split; [intros ->; reflexivity|intros [= ->]; reflexivity].
    + split; [discriminate|intros [= E _]; congruence].
Qed.

Lemma prefix_strip p s :
  String.prefix p s = true <-> exists rest, strip_literal p s = Some rest.
Proof.
  revert s; induction p as [|a p IH]; intros s.
  - destruct s; simpl; split; eauto.
  - destruct s as [|b s]; cbn [String.prefix strip_literal].
    + split; [discriminate|intros [? [=]]].
    + destruct (Ascii.eqb_spec a b) as [->|Hne].
      * destruct (ascii_dec b b) as [_|[]]; [apply IH|reflexivity].
      * destruct (ascii_dec a b) as [->|_]; [contradiction|].
        split; [discriminate|intros [? [=]]].
Qed.

Lemma startsWith_app s p :
  JS.startsWith s p = true <-> exists rest, s = p +:+ rest.
Proof.
  unfold JS.startsWith. rewrite prefix_strip.
  split; intros [rest H]; exists rest; apply strip_literal_Some, H.
Qed.

Lemma no_line_terminator_app s t :
  no_line_terminator (s +:+ t) = no_line_terminator s && no_line_terminator t.
Proof.
  induction s as [|c s IH]; simpl; [reflexivity|].
  rewrite IH, andb_assoc. reflexivity.
Qed.

(** What [find] returns is truthy when the predicate refuses the empty
    string, so the test of the source is the test that some element
    satisfies the predicate. *)
Lemma is_truthy_find (p : string -> bool) (l : list string) :
  p "" = false -> JS.is_truthy (find p l) = existsb p l.
Proof.
  intros Hp. induction l as [|x l IH]; simpl; [reflexivity|].
  destruct (p x) eqn:Hx; simpl; [|exact IH].
  unfold JS.is_truthy, JS.truthy.
  destruct (String.eqb_spec x "") as [->|_]; [congruence|reflexivity].
Qed.

(** ** Argument assembly *)

Lemma _defaultArgs_refused options userDataDir port :
  refused options = true ->
  _defaultArgs options userDataDir port = Threw (refusal options).
Proof.
  unfold refused, refusal, _defaultArgs.
  rewrite !is_truthy_find by reflexivity.
  destruct (default false (LaunchOptions.devtools options)); [reflexivity|].
  destruct (existsb is_profile_arg _); [reflexivity|].
  destruct (existsb is_juggler_arg _); [reflexivity|discriminate].
Qed.

Lemma _defaultArgs_accepted options userDataDir port :
  refused options = false ->
  let args := default [] (LaunchOptions.args options) in
  _defaultArgs options userDataDir port =
  Returned (leading_args options userDataDir port ++ args ++
            if forallb is_flag args then ["about:blank"] else []).
Proof.
  unfold refused, _defaultArgs, leading_args.
  rewrite !is_truthy_find by reflexivity.
  destruct (default false (LaunchOptions.devtools options)); [discriminate|].
  destruct (existsb is_profile_arg _); [discriminate|].
  destruct (existsb is_juggler_arg _); [discriminate|].
  intros _; simpl.
  destruct (forallb is_flag _); simpl; [reflexivity|].
  rewrite app_nil_r. reflexivity.
Qed.

(** C4: when every passthrough argument starts with a dash (the empty list
    included), the list [_defaultArgs] assembles is the leading arguments,
    the passthrough arguments and then about:blank as its last element;
    when some passthrough argument does not start with a dash, the list
    stops after the passthrough arguments. *)
Theorem defaultArgs_blank_destination options userDataDir port :
  refused options = false ->
  let args := default [] (LaunchOptions.args options) in
  exists assembled,
    _defaultArgs options userDataDir port = Returned assembled /\
    (Forall (fun arg => JS.startsWith arg "-" = true) args ->
       assembled = (leading_args options userDataDir port ++ args) ++ ["about:blank"]) /\
    (~ Forall (fun arg => JS.startsWith arg "-" = true) args ->
       assembled = leading_args options userDataDir port ++ args).
Proof.
  intros Hok args. eexists. split; [apply _defaultArgs_accepted, Hok|].
  fold args. destruct (forallb is_flag args) eqn:Hall.
  - split; [intros _; rewrite app_assoc; reflexivity|].
    intros Hn. exfalso. apply Hn. apply List.Forall_forall. intros x Hx.
    rewrite forallb_forall in Hall. apply Hall, Hx.
  - split; [|intros _; rewrite app_nil_r; reflexivity].
    intros Hf. rewrite List.Forall_forall in Hf.
    assert (forallb is_flag args = true) as E by (apply forallb_forall, Hf).
    congruence.
Qed.

Lemma defaultArgs_blank_destination_witness :
  refused flags_only = false /\
  exists assembled,
    _defaultArgs flags_only "/profile" 0 = Returned assembled /\
    (Forall (fun arg => JS.startsWith arg "-" = true) ["-foo"; "--bar=1"] ->
       assembled = (leading_args flags_only "/profile" 0 ++ ["-foo"; "--bar=1"]) ++ ["about:blank"]) /\
    (~ Forall (fun arg => JS.startsWith arg "-" = true) ["-foo"; "--bar=1"] ->
       assembled = leading_args flags_only "/profile" 0 ++ ["-foo"; "--bar=1"]).
Proof.
  split; [reflexivity|].
  exact (defaultArgs_blank_destination flags_only "/profile" 0 eq_refl).
Defined.

Example defaultArgs_no_args :
  _defaultArgs LaunchOptions.empty "/profile" 0 =
  Returned ["-no-remote"; "-headless"; "-profile"; "/profile"; "-juggler"; "0"; "about:blank"].
Proof. reflexivity. Qed.

Example defaultArgs_page_arg :
  _defaultArgs
    {| LaunchOptions.ignoreDefaultArgs := None;
       LaunchOptions.args := Some ["-foo"; "https://example.com"];
       LaunchOptions.dumpio := None; LaunchOptions.executablePath := None;
       LaunchOptions.env := None; LaunchOptions.handleSIGHUP := None;
       LaunchOptions.handleSIGINT := None; LaunchOptions.handleSIGTERM := None;
       LaunchOptions.timeout := None; LaunchOptions.devtools := None;
       LaunchOptions.headless := Some false |} "/profile" 9222 =
  Returned ["-no-remote"; "-wait-for-browser"; "-profile"; "/profile"; "-juggler"; "9222";
            "-foo"; "https://example.com"].
Proof. reflexivity. Qed.

(** ** The event loop: safety *)

Lemma task_unit_ind (Q : task unit -> Prop) :
  (forall a, Q (Ret a)) ->
  (forall m, Q (Throw m)) ->
  (forall e k, Q k -> Q (Do e k)) ->
  (forall op k, (forall v, Q (k v)) -> Q (Await op k)) ->
  (forall child k, Q child -> Q k -> Q (Fork child k)) ->
  forall t, Q t.
Proof.
  intros HR HT HD HA HF. fix IH 1. intros [a|m|e k|op k|child k].
  - apply HR.
  - apply HT.
  - apply HD, IH.
  - apply HA. intros v. apply IH.
  - apply HF; apply IH.
Qed.

Section Safety.

Variable P : list event -> event -> Prop.
Hypothesis P_monotone : monotone P.

Lemma ext_ok_nil l : ext_ok P l [].
Proof. intros pre e post E. destruct pre; discriminate. Qed.

Lemma ext_ok_snoc l ext e :
  ext_ok P l ext -> P (l ++ ext) e -> ext_ok P l (ext ++ [e]).
Proof.
  intros Hl He pre x post E.
  destruct post as [|y post _] using rev_ind.
  - apply app_inj_tail in E as [-> ->]. exact He.
  - rewrite app_comm_cons, app_assoc in E.
    apply app_inj_tail in E as [-> _]. eapply Hl. reflexivity.
Qed.

Lemma safe_monotone t : forall h h', sublist h h' -> safe P h t -> safe P h' t.
Proof.
  induction t as [a|m|e k IH|op k IH|child k IHc IHk] using task_unit_ind;
    intros h h' Hs; simpl; try tauto.
  - intros [He Hk]. split; [eapply P_monotone; eassumption|].
    eapply IH; [|exact Hk]. apply sublist_app; [exact Hs|reflexivity].
  - intros [He Hk]. split; [eapply P_monotone; eassumption|].
    intros r v Hv. destruct (Hk r v Hv) as [Hd Hkv]. split.
    + eapply P_monotone; [|exact Hd]. apply sublist_app; [exact Hs|reflexivity].
    + eapply IH; [|exact Hkv]. apply sublist_app; [exact Hs|reflexivity].
  - intros [Hc Hk]. split; [eapply IHc|eapply IHk]; eassumption.
Qed.

Lemma suspended_ok_monotone l l' s :
  sublist l l' -> suspended_ok P l s -> suspended_ok P l' s.
Proof.
  intros Hs. destruct s as [op k]. intros (h & Hh & Hk).
  exists h. split; [etransitivity; eassumption|exact Hk].
Qed.

(** One synchronous run adds events that satisfy [P] and leaves only
    tasks with a safe future. *)
Lemma run_safe t : forall l ext,
  safe P (l ++ ext) t -> ext_ok P l ext ->
  ext_ok P l (ext ++ fst (run t)) /\
  Forall (suspended_ok P (l ++ ext ++ fst (run t))) (snd (run t)).
Proof.
  induction t as [a|m|e k IH|op k IH|child k IHc IHk] using task_unit_ind;
    intros l ext Hsafe Hl; simpl in *.
  - rewrite app_nil_r. split; [exact Hl|constructor].
  - rewrite app_nil_r. split; [exact Hl|constructor].
  - destruct Hsafe as [He Hk]. rewrite <- app_assoc in Hk.
    destruct (IH l (ext ++ [e]) Hk (ext_ok_snoc _ _ _ Hl He)) as [H1 H2].
    destruct (run k) as [es ss]; simpl in *.
    rewrite <- app_assoc in H1, H2. split; assumption.
  - destruct Hsafe as [He Hk]. split; [apply ext_ok_snoc; assumption|].
    constructor; [|constructor].
    exists ((l ++ ext) ++ [EvCall op]). split; [rewrite app_assoc; reflexivity|].
    intros r v Hv. destruct (Hk r v Hv) as [Hd Hkv]. split; [exact Hd|].
    rewrite <- app_assoc. exact Hkv.
  - destruct Hsafe as [Hc Hk].
    destruct (IHc l ext Hc Hl) as [H1 H2].
    assert (sublist (l ++ ext) (l ++ ext ++ fst (run child))) as Hsub.
    { rewrite app_assoc. apply sublist_inserts_r. reflexivity. }
    rewrite app_assoc in Hsub.
    pose proof (safe_monotone _ _ _ Hsub Hk) as Hk'. rewrite <- app_assoc in Hk'.
    destruct (IHk l (ext ++ fst (run child)) Hk' H1) as [H3 H4].
    destruct (run child) as [es1 ss1], (run k) as [es2 ss2]; simpl in *.
    rewrite <- app_assoc in H3, H4. split; [exact H3|].
    apply Forall_app. split; [|exact H4].
    eapply Forall_impl; [exact H2|]. intros s. apply suspended_ok_monotone.
    rewrite !app_assoc. apply sublist_inserts_r. reflexivity.
Qed.

Lemma start_ok t : safe P [] t -> config_ok P [] (start t).
Proof.
  intros Hs. destruct (run_safe t [] [] Hs (ext_ok_nil _)) as [H1 H2].
  unfold config_ok, start. destruct (run t) as [es ss]; simpl in *.
  split; [exists es; split; [reflexivity|exact H1]|exact H2].
Qed.

Lemma resume_ok l i r c c' : config_ok P l c -> resume i r c = Some c' -> config_ok P l c'.
Proof.
  intros [(ext & El & Hl) Hp] Hr. unfold resume in Hr.
  destruct (pending c !! i) as [[op k]|] eqn:Hi; [|discriminate].
  destruct (settle op r) as [v|] eqn:Hv; [|discriminate].
  assert (suspended_ok P (log c) (Suspended op k)) as (h & Hh & Hk).
  { rewrite Forall_forall in Hp. apply Hp. eapply list_elem_of_lookup_2, Hi. }
  destruct (Hk r v Hv) as [Hd Hkv]. rewrite El in *.
  assert (ext_ok P l (ext ++ [EvDone op r])) as Hl'.
  { apply ext_ok_snoc; [exact Hl|]. eapply P_monotone; eassumption. }
  assert (safe P (l ++ ext ++ [EvDone op r]) (k v)) as Hs'.
  { eapply safe_monotone; [|exact Hkv]. rewrite app_assoc.
    apply sublist_app; [exact Hh|reflexivity]. }
  destruct (run_safe (k v) _ _ Hs' Hl') as [H1 H2].
  destruct (run (k v)) as [es ss]; simpl in *. injection Hr as <-.
  unfold config_ok; simpl.
  rewrite <- !app_assoc in H1, H2. simpl in H1, H2.
  rewrite <- app_assoc.
  split; [exists (ext ++ EvDone op r :: es); split; [reflexivity|exact H1]|].
  apply Forall_app. split; [|exact H2].
  eapply Forall_impl.
  - apply Forall_delete. exact Hp.
  - intros s. apply suspended_ok_monotone.
    rewrite app_assoc. apply sublist_inserts_r. reflexivity.
Qed.

Lemma exec_ok l schedule : forall c c',
  config_ok P l c -> exec schedule c = Some c' -> config_ok P l c'.
Proof.
  induction schedule as [|[i r] rest IH]; intros c c' Hc; simpl.
  - intros [= <-]. exact Hc.
  - destruct (resume i r c) as [c1|] eqn:Hr; [|discriminate].
    apply IH. eapply resume_ok; eassumption.
Qed.

(** A property that is safe for a task holds of every event of every run
    of it. *)
Lemma safe_sound t schedule c :
  safe P [] t -> exec schedule (start t) = Some c -> ext_ok P [] (log c).
Proof.
  intros Hs He. eapply exec_ok in He as [(ext & -> & H) _]; [exact H|].
  apply start_ok, Hs.
Qed.

(** From a configuration whose pending tasks have a safe future on, every
    later event satisfies [P]. *)
Lemma safe_onwards schedule c c' :
  Forall (suspended_ok P (log c)) (pending c) ->
  exec schedule c = Some c' ->
  exists ext, log c' = log c ++ ext /\ ext_ok P (log c) ext.
Proof.
  intros Hp He. eapply exec_ok in He as [H _]; [exact H|].
  split; [|exact Hp]. exists []. rewrite app_nil_r. split; [reflexivity|apply ext_ok_nil].
Qed.

End Safety.

(** ** Readiness *)

Lemma strip_literal_app lit rest : strip_literal lit (lit +:+ rest) = Some rest.
Proof. apply strip_literal_Some. reflexivity. Qed.

Lemma regex_match_juggler line whole endpoint :
  regex_match juggler_regex line = Some (whole, endpoint) <->
  whole = line /\ line = "Juggler listening on " +:+ endpoint /\
  JS.startsWith endpoint "ws://" = true /\ no_line_terminator endpoint = true.
Proof.
  unfold regex_match; cbn [literal group_literal juggler_regex].
  split.
  - destruct (strip_literal "Juggler listening on " line) as [rest|] eqn:E1; [|discriminate].
    destruct (strip_literal "ws://" rest) as [tail|] eqn:E2; [|discriminate].
    destruct (no_line_terminator tail) eqn:E3; [|discriminate].
    intros [= <- <-]. apply strip_literal_Some in E1, E2. subst rest.
    repeat split; [exact E1| |].
    + apply startsWith_app. eexists. reflexivity.
    + rewrite no_line_terminator_app, E3. reflexivity.
  - intros (-> & -> & Hs & Hn).
    apply startsWith_app in Hs as [tail ->].
    rewrite no_line_terminator_app in Hn. apply andb_true_iff in Hn as [_ Hn].
    rewrite (strip_literal_app "Juggler listening on "), (strip_literal_app "ws://"), Hn.
    reflexivity.
Qed.

(** The wait resolves on the first line that the pattern accepts, and on
    nothing else. *)
Lemma waitForLine_Returned regex timeoutError out m :
  waitForLine regex timeoutError out = Some (Returned m) <->
  exists before line after,
    out = before ++ Line line :: after /\
    Forall (fun o => exists text, o = Line text /\ regex_match regex text = None) before /\
    regex_match regex line = Some m.
Proof.
  induction out as [|o out IH]; simpl.
  - split; [discriminate|]. intros (before & line & after & E & _).
    destruct before; discriminate.
  - destruct o as [text| |].
    + destruct (regex_match regex text) as [m'|] eqn:Em.
      * split.
        -- intros [= ->]. exists [], text, out. repeat split; [constructor|exact Em].
        -- intros (before & line & after & E & Hq & Hm).
           destruct before as [|b before].
           ++ injection E as -> ->. congruence.
           ++ injection E as <- ->. apply Forall_cons in Hq as [(t & Et & Ht) _].
              injection Et as ->. congruence.
      * rewrite IH. split.
        -- intros (before & line & after & -> & Hq & Hm).
           exists (Line text :: before), line, after.
           repeat split; [constructor; [eauto|exact Hq]|exact Hm].
        -- intros (before & line & after & E & Hq & Hm).
           destruct before as [|b before].
           ++ injection E as -> ->. congruence.
           ++ injection E as <- ->. apply Forall_cons in Hq as [_ Hq]. eauto 6.
    + split; [discriminate|]. intros (before & line & after & E & Hq & _).
      destruct before as [|b before]; [discriminate|].
      injection E as <- ->. apply Forall_cons in Hq as [(t & Et & _) _]. discriminate.
    + split; [discriminate|]. intros (before & line & after & E & Hq & _).
      destruct before as [|b before]; [discriminate|].
      injection E as <- ->. apply Forall_cons in Hq as [(t & Et & _) _]. discriminate.
Qed.


(** ** The launch *)

#[local] Arguments JS.join : simpl never.
#[local] Arguments firefoxArguments : simpl never.
#[local] Arguments launch_env : simpl never.
#[local] Arguments timeout_message : simpl never.
#[local] Arguments JS.truthy : simpl never.
#[local] Arguments waitForLine : simpl never.
#[local] Arguments _resolveExecutablePath : simpl never.
#[local] Arguments _createBrowserFetcher : simpl never.

Lemma sublist_In {A} (l k : list A) x : sublist l k -> In x l -> In x k.
Proof.
  intros Hs Hx. apply list_elem_of_In. apply list_elem_of_In in Hx.
  eapply elem_of_sublist; eassumption.
Qed.

Lemma after_readiness_monotone : monotone after_readiness.
Proof.
  intros h h' e Hs H Hx. destruct (H Hx) as (p & t & te & out & m & Hin & Hw).
  exists p, t, te, out, m. split; [eapply sublist_In; eassumption|exact Hw].
Qed.

(** Symbolic execution of a task under [safe]: one step per event, with a
    case for each answer of the world and each branch of the code. *)
Ltac settle_cases :=
  match goal with
  | H : (if ?b then _ else _) = Some _ |- _ =>
      destruct b eqn:?; try discriminate H
  | H : match ?r with _ => _ end = Some _ |- _ =>
      is_var r; destruct r; try discriminate H
  | H : Some _ = Some _ |- _ => injection H as <-
  end.

Ltac branch_cases :=
  match goal with
  | |- context [lift ?c] => destruct c as [?|?] eqn:?
  | |- context [match ?p with (_, _) => _ end] => is_var p; destruct p
  | |- context [match JS.truthy ?x with _ => _ end] => destruct (JS.truthy x) as [?|] eqn:?
  | |- context [if is_server ?c then _ else _] => destruct (is_server c) eqn:?
  | |- context [match ?v with Returned _ => _ | Threw _ => _ end] => destruct v as [?|?]
  end.

Ltac run_task leaf :=
  repeat (simpl;
    match goal with
    | |- True => exact I
    | |- _ /\ _ => split
    | |- forall _, _ => intro
    | |- safe _ _ _ => first [settle_cases | branch_cases]
    | |- _ => first [settle_cases | solve [leaf]]
    end).

Ltac find_in_list := simpl; repeat (first [left; reflexivity | right]).

Lemma launch_after_readiness this host options connectionType userDataDir port :
  safe after_readiness [] (call_launchServer this host options connectionType userDataDir port).
Proof.
  unfold call_launchServer, _launchServer.
  run_task ltac:(unfold after_readiness; simpl; first
    [ solve [intros []]
    | intros _; unfold readiness_matched; do 5 eexists;
      split; [find_in_list|eassumption] ]).
Qed.

Lemma endpoint_announced_monotone connectionType :
  monotone (endpoint_announced connectionType).
Proof.
  intros h h' e Hs H launched E.
  destruct (H launched E) as (p & t & te & out & line & endpoint & Hin & Hw & Hh).
  exists p, t, te, out, line, endpoint.
  split; [eapply sublist_In; eassumption|split; assumption].
Qed.

Lemma launch_endpoint_announced this host options connectionType userDataDir port :
  safe (endpoint_announced connectionType) []
    (call_launchServer this host options connectionType userDataDir port).
Proof.
  unfold call_launchServer, _launchServer.
  run_task ltac:(unfold endpoint_announced; first
    [ solve [intros ? [=]]
    | intros ? [= <-];
      match goal with H : waitForLine _ _ _ = Some (Returned ?m) |- _ => destruct m end;
      do 6 eexists; split; [find_in_list|split; [eassumption|]];
      unfold hands_out; simpl;
      match goal with H : is_server _ = _ |- _ => rewrite H end; split; reflexivity ]).
Qed.

(** C1 (as amended): the readiness signal is a line of standard output made
    of the words Juggler listening on, a space, and an endpoint that begins
    with ws:// and holds no line terminator.  The wait resolves exactly when
    such a line comes, on the first one, with the line and the endpoint as
    announced; no other line resolves it; and what a launch hands to its
    caller holds exactly the endpoint of that line. *)
Theorem readiness_line :
  (forall line whole endpoint,
     regex_match juggler_regex line = Some (whole, endpoint) <->
     whole = line /\ line = "Juggler listening on " +:+ endpoint /\
     JS.startsWith endpoint "ws://" = true /\ no_line_terminator endpoint = true) /\
  (forall timeoutError out m,
     waitForLine juggler_regex timeoutError out = Some (Returned m) <->
     exists before line after,
       out = before ++ Line line :: after /\ quiet before /\
       regex_match juggler_regex line = Some m) /\
  (forall this host options connectionType userDataDir port schedule c launched,
     exec schedule (start (call_launchServer this host options connectionType userDataDir port)) = Some c ->
     In (EvSettled (Returned launched)) (log c) ->
     exists process timeout timeoutError out line endpoint,
       In (EvDone (WaitForLine process juggler_regex timeout timeoutError) (Observed out)) (log c) /\
       waitForLine juggler_regex timeoutError out = Some (Returned (line, endpoint)) /\
       line = "Juggler listening on " +:+ endpoint /\
       hands_out connectionType endpoint launched).
Proof.
  split; [exact regex_match_juggler|]. split; [intros; apply waitForLine_Returned|].
  intros this host options connectionType userDataDir port schedule c launched He Hin.
  apply in_split in Hin as (pre & post & E).
  pose proof (safe_sound _ (endpoint_announced_monotone connectionType) _ _ _
                (launch_endpoint_announced this host options connectionType userDataDir port) He) as Hok.
  destruct (Hok pre _ post E launched eq_refl)
    as (p & t & te & out & line & endpoint & Hi & Hw & Hh).
  exists p, t, te, out, line, endpoint. rewrite E.
  split; [apply in_or_app; left; exact Hi|]. split; [exact Hw|]. split; [|exact Hh].
  apply waitForLine_Returned in Hw as (before & l & after & _ & _ & Hm).
  apply regex_match_juggler in Hm as (-> & Hl & _). exact Hl.
Qed.

(** The scenario of a process that announces ws://127.0.0.1:9222/abc in
    the words the pattern asks for: the caller gets a transport to exactly
    that endpoint. *)
Example juggler_listening_scenario :
  exists c,
    exec [(1%nat, Spawned a_process);
          (1%nat, Observed [Line "starting"; Line "Juggler listening on ws://127.0.0.1:9222/abc"])]
      (start (call_launchServer a_firefox linux_host LaunchOptions.empty local_ (Some "/profile") None)) = Some c /\
    last (log c) =
      Some (EvSettled (Returned
        {| browserServer :=
             {| server_process := 4242%nat; server_gracefullyClose := 4242%nat;
                wsEndpoint := None |};
           transport := Some {| url := "ws://127.0.0.1:9222/abc" |} |})).
Proof. eexists. split; [reflexivity|]. vm_compute. reflexivity. Qed.

(** C1, as the spec words it, fails: a line Listening on ws://127.0.0.1:9222/abc
    is refused by the pattern of the code, the wait does not settle on it,
    and a launch whose process prints it and nothing else ends in the
    timeout error. *)
Lemma listening_on_is_no_readiness :
  regex_match juggler_regex "Listening on ws://127.0.0.1:9222/abc" = None /\
  waitForLine juggler_regex "timed out" [Line "Listening on ws://127.0.0.1:9222/abc"] = None /\
  exists c,
    exec [(1%nat, Spawned a_process);
          (1%nat, Observed [Line "Listening on ws://127.0.0.1:9222/abc"; Timeout])]
      (start (call_launchServer a_firefox linux_host LaunchOptions.empty local_ (Some "/profile") None)) = Some c /\
    last (log c) =
      Some (EvSettled (Threw "Timed out after 30000 ms while trying to connect to Firefox!")).
Proof.
  split; [reflexivity|]. split; [reflexivity|].
  eexists. split; [reflexivity|]. vm_compute. reflexivity.
Qed.

(** ** Ordering *)

(** C2: in every run of a launch, whatever the world answers and in
    whatever order, a BrowserServer or a WebSocketTransport is constructed,
    and the launch resolves to its caller, only after the wait for the
    readiness line has settled on a match. *)
Theorem exposed_only_after_readiness this host options connectionType userDataDir port
    schedule c pre e post :
  exec schedule (start (call_launchServer this host options connectionType userDataDir port)) = Some c ->
  log c = pre ++ e :: post ->
  exposes e ->
  readiness_matched pre.
Proof.
  intros He E Hx.
  exact (safe_sound _ after_readiness_monotone _ _ _
           (launch_after_readiness this host options connectionType userDataDir port) He
           pre e post E Hx).
Qed.

Lemma exposed_only_after_readiness_witness :
  exists c,
    exec ready_schedule
      (start (call_launchServer a_firefox linux_host LaunchOptions.empty server_ (Some "/profile") None)) = Some c /\
    log c = take 5 (log c) ++ EvNew (NewBrowserServer ready_server) :: drop 6 (log c) /\
    exposes (EvNew (NewBrowserServer ready_server)) /\
    readiness_matched (take 5 (log c)).
Proof.
  eexists. split; [reflexivity|]. split; [vm_compute; reflexivity|]. split; [exact I|].
  eapply (exposed_only_after_readiness a_firefox linux_host LaunchOptions.empty server_
            (Some "/profile") None ready_schedule);
    [reflexivity|vm_compute; reflexivity|exact I].
Defined.

(** ** Argument validation and the launch *)

Lemma firefoxArguments_refused options dir port :
  validates options = true -> refused options = true ->
  firefoxArguments options dir port = Threw (refusal options).
Proof.
  unfold validates, firefoxArguments. intros Hv Hr.
  destruct (default (IgnoreAll false) _) as [[|]|denied];
    [discriminate| |]; rewrite _defaultArgs_refused by exact Hr; reflexivity.
Qed.

Lemma firefoxArguments_unchecked options dir port :
  LaunchOptions.ignoreDefaultArgs options = Some (IgnoreAll true) ->
  firefoxArguments options dir port = Returned (default [] (LaunchOptions.args options)).
Proof. unfold firefoxArguments. intros ->. reflexivity. Qed.

Lemma never_spawns_monotone : monotone never_spawns.
Proof. intros h h' e _ H. exact H. Qed.

Lemma launch_never_spawns this host options connectionType userDataDir port :
  validates options = true -> refused options = true ->
  safe never_spawns [] (call_launchServer this host options connectionType userDataDir port).
Proof.
  intros Hv Hr. unfold call_launchServer, _launchServer.
  run_task ltac:(first
    [ solve [unfold never_spawns; simpl; tauto]
    | match goal with
      | H : firefoxArguments _ _ _ = Returned _ |- _ =>
          rewrite firefoxArguments_refused in H by assumption; discriminate H
      end ]).
Qed.

(** C3 (as amended): when [ignoreDefaultArgs] is not the value true, a
    devtools request, a passthrough argument that starts with -profile or
    --profile, or one that starts with -juggler makes the argument assembly
    throw its descriptive error; in no run of such a launch is the process
    launcher called or the launch resolved; and the launch rejects with
    that error, at once when the caller gave a profile directory and as
    soon as the temporary directory is made otherwise. *)
Theorem invalid_arguments_throw this host options connectionType userDataDir port :
  validates options = true ->
  refused options = true ->
  (forall dir, firefoxArguments options dir port = Threw (refusal options)) /\
  (forall schedule c e,
     exec schedule (start (call_launchServer this host options connectionType userDataDir port)) = Some c ->
     In e (log c) -> ~ spawns e) /\
  (forall dir, JS.truthy userDataDir = Some dir ->
     In (EvSettled (Threw (refusal options)))
        (log (start (call_launchServer this host options connectionType userDataDir port)))) /\
  (JS.truthy userDataDir = None ->
   forall suffix, String.length suffix = 6%nat ->
     exists c,
       exec [(0%nat, Created suffix)]
         (start (call_launchServer this host options connectionType userDataDir port)) = Some c /\
       In (EvSettled (Threw (refusal options))) (log c)).
Proof.
  intros Hv Hr. split; [intros dir; apply firefoxArguments_refused; assumption|].
  split; [|split].
  - intros schedule c e He Hin. apply in_split in Hin as (pre & post & E).
    exact (safe_sound _ never_spawns_monotone _ _ _
             (launch_never_spawns this host options connectionType userDataDir port Hv Hr) He
             pre e post E).
  - intros dir Hu. unfold call_launchServer, _launchServer. rewrite Hu. simpl.
    rewrite firefoxArguments_refused by assumption. simpl. tauto.
  - intros Hu suffix Hs. unfold call_launchServer, _launchServer. rewrite Hu.
    cbn [exec start run observed task_bind mbind task_mbind await pending log resume
         lookup list_lookup settle].
    apply Nat.eqb_eq in Hs. rewrite Hs. simpl.
    rewrite firefoxArguments_refused by assumption. simpl.
    eexists. split; [reflexivity|]. simpl. tauto.
Qed.

Lemma invalid_arguments_throw_witness :
  validates devtools_options = true /\
  refused devtools_options = true /\
  (forall dir, firefoxArguments devtools_options dir None = Threw (refusal devtools_options)) /\
  (forall schedule c e,
     exec schedule (start (call_launchServer a_firefox linux_host devtools_options local_ None None)) = Some c ->
     In e (log c) -> ~ spawns e) /\
  (forall dir, JS.truthy None = Some dir ->
     In (EvSettled (Threw (refusal devtools_options)))
        (log (start (call_launchServer a_firefox linux_host devtools_options local_ None None)))) /\
  (JS.truthy None = None ->
   forall suffix, String.length suffix = 6%nat ->
     exists c,
       exec [(0%nat, Created suffix)]
         (start (call_launchServer a_firefox linux_host devtools_options local_ None None)) = Some c /\
       In (EvSettled (Threw (refusal devtools_options))) (log c)).
Proof.
  split; [reflexivity|]. split; [reflexivity|].
  exact (invalid_arguments_throw a_firefox linux_host devtools_options local_ None None eq_refl eq_refl).
Defined.

(** C3, as the spec words it, fails: with [ignoreDefaultArgs] set to true,
    options that hold a devtools request, a profile argument and a juggler
    argument get the process launcher called with the arguments as they
    are. *)
Lemma unchecked_options_reach_the_launcher :
  refused unchecked_options = true /\
  firefoxArguments unchecked_options "/profile" None =
    Returned ["-profile"; "/mine"; "-juggler"; "9"] /\
  launcher_called
    (log (start (call_launchServer a_firefox linux_host unchecked_options local_ (Some "/profile") None))) = true.
Proof. split; [reflexivity|]. split; [reflexivity|]. vm_compute. reflexivity. Qed.

Lemma passes_args_monotone args : monotone (passes_args args).
Proof. intros h h' e _ H. exact H. Qed.

Lemma launch_passes_args this host options connectionType userDataDir port :
  LaunchOptions.ignoreDefaultArgs options = Some (IgnoreAll true) ->
  safe (passes_args (default [] (LaunchOptions.args options))) []
    (call_launchServer this host options connectionType userDataDir port).
Proof.
  intros Hi. unfold call_launchServer, _launchServer.
  run_task ltac:(unfold passes_args; first
    [ solve [intros ? [=]]
    | intros ? [= <-]; simpl;
      match goal with
      | H : firefoxArguments _ _ _ = Returned _ |- _ =>
          rewrite firefoxArguments_unchecked in H by assumption; injection H as <-
      end; reflexivity ]).
Qed.

(** C10: with [ignoreDefaultArgs] set to the value true, the argument list
    is the caller's [args] and nothing else, whatever the devtools flag and
    whatever the arguments are: nothing is validated.  Every call of the
    process launcher gets exactly these arguments, and a launch with a
    profile directory and an executable of the caller does call it. *)
Theorem ignore_default_args_passes_args this host options connectionType userDataDir port :
  LaunchOptions.ignoreDefaultArgs options = Some (IgnoreAll true) ->
  (forall dir,
     firefoxArguments options dir port = Returned (default [] (LaunchOptions.args options))) /\
  (forall schedule c o,
     exec schedule (start (call_launchServer this host options connectionType userDataDir port)) = Some c ->
     In (EvCall (LaunchProcess o)) (log c) ->
     LaunchProcessOptions.args o = default [] (LaunchOptions.args options)) /\
  (forall dir exe,
     JS.truthy userDataDir = Some dir ->
     JS.truthy (LaunchOptions.executablePath options) = Some exe ->
     exists o,
       In (EvCall (LaunchProcess o))
          (log (start (call_launchServer this host options connectionType userDataDir port))) /\
       LaunchProcessOptions.args o = default [] (LaunchOptions.args options)).
Proof.
  intros Hi. split; [intros dir; apply firefoxArguments_unchecked, Hi|]. split.
  - intros schedule c o He Hin. apply in_split in Hin as (pre & post & E).
    exact (safe_sound _ (passes_args_monotone _) _ _ _
             (launch_passes_args this host options connectionType userDataDir port Hi) He
             pre _ post E o eq_refl).
  - intros dir exe Hu Hx. unfold call_launchServer, _launchServer. rewrite Hu, Hx. simpl.
    rewrite firefoxArguments_unchecked by exact Hi. simpl.
    eexists. split; [right; left; reflexivity|reflexivity].
Qed.

Lemma ignore_default_args_passes_args_witness :
  LaunchOptions.ignoreDefaultArgs unchecked_options = Some (IgnoreAll true) /\
  (forall dir,
     firefoxArguments unchecked_options dir None =
     Returned ["-profile"; "/mine"; "-juggler"; "9"]) /\
  (forall schedule c o,
     exec schedule (start (call_launchServer a_firefox linux_host unchecked_options local_ (Some "/profile") None))
       = Some c ->
     In (EvCall (LaunchProcess o)) (log c) ->
     LaunchProcessOptions.args o = ["-profile"; "/mine"; "-juggler"; "9"]) /\
  (forall dir exe,
     JS.truthy (Some "/profile") = Some dir ->
     JS.truthy (Some "/usr/bin/firefox") = Some exe ->
     exists o,
       In (EvCall (LaunchProcess o))
          (log (start (call_launchServer a_firefox linux_host unchecked_options local_ (Some "/profile") None))) /\
       LaunchProcessOptions.args o = ["-profile"; "/mine"; "-juggler"; "9"]).
Proof.
  split; [reflexivity|].
  exact (ignore_default_args_passes_args a_firefox linux_host unchecked_options local_
           (Some "/profile") None eq_refl).
Defined.

(** ** The temporary profile directory *)

Lemma truthy_made prefix suffix :
  (String.length suffix =? 6)%nat = true ->
  JS.truthy (Some (prefix +:+ suffix)) = Some (prefix +:+ suffix).
Proof.
  intros Hs. unfold JS.truthy.
  destruct (String.eqb_spec (prefix +:+ suffix) "") as [E|_]; [|reflexivity].
  exfalso. destruct prefix as [|a prefix]; [|discriminate E].
  change (suffix = "") in E. rewrite E in Hs. discriminate Hs.
Qed.

Lemma registered_monotone userDataDir : monotone (registered userDataDir).
Proof.
  intros h h' e Hs H o E. specialize (H o E).
  destruct (JS.truthy userDataDir); [exact H|].
  destruct H as (prefix & suffix & Hin & Ht).
  exists prefix, suffix. split; [eapply sublist_In; eassumption|exact Ht].
Qed.

Lemma launch_registered this host options connectionType userDataDir port :
  safe (registered userDataDir) [] (call_launchServer this host options connectionType userDataDir port).
Proof.
  unfold call_launchServer, _launchServer.
  run_task ltac:(unfold registered; first
    [ solve [intros ? [=]]
    | intros ? [= <-];
      match goal with H : JS.truthy userDataDir = _ |- _ => rewrite H end;
      first
        [ reflexivity
        | do 2 eexists; split; [find_in_list|]; simpl; apply truthy_made; assumption ] ]).
Qed.

(** What the code keeps of the registration: whenever a launch calls the
    process launcher, the directory it registers for deletion is none when
    the caller gave a profile directory, and is the directory that
    [fs.mkdtemp] made for this launch when the caller gave none.  A
    directory of the caller is thus never registered, in any run, also one
    that fails later. *)
Theorem temporary_profile_registered this host options connectionType userDataDir port
    schedule c pre o post :
  exec schedule (start (call_launchServer this host options connectionType userDataDir port)) = Some c ->
  log c = pre ++ EvCall (LaunchProcess o) :: post ->
  match JS.truthy userDataDir with
  | Some _ => LaunchProcessOptions.tempDir o = None
  | None =>
      exists prefix suffix,
        In (EvDone (Mkdtemp prefix) (Created suffix)) pre /\
        LaunchProcessOptions.tempDir o = Some (prefix +:+ suffix)
  end.
Proof.
  intros He E.
  exact (safe_sound _ (registered_monotone userDataDir) _ _ _
           (launch_registered this host options connectionType userDataDir port) He
           pre _ post E o eq_refl).
Qed.

Lemma temporary_profile_registered_witness :
  exists c,
    exec [(0%nat, Created "abcdef")]
      (start (call_launchServer a_firefox linux_host LaunchOptions.empty local_ None None)) = Some c /\
    log c = take 3 (log c) ++ EvCall (LaunchProcess temporary_launch) :: drop 4 (log c) /\
    match JS.truthy None with
    | Some _ => LaunchProcessOptions.tempDir temporary_launch = None
    | None =>
        exists prefix suffix,
          In (EvDone (Mkdtemp prefix) (Created suffix)) (take 3 (log c)) /\
          LaunchProcessOptions.tempDir temporary_launch = Some (prefix +:+ suffix)
    end.
Proof.
  eexists. split; [reflexivity|]. split; [vm_compute; reflexivity|].
  eapply (temporary_profile_registered a_firefox linux_host LaunchOptions.empty local_ None None
            [(0%nat, Created "abcdef")]);
    [reflexivity|vm_compute; reflexivity].
Defined.

(** C9 fails on the code: a launch with a devtools request and no profile
    directory of the caller has its directory made by [fs.mkdtemp], rejects
    with the devtools error, and in no run calls the process launcher.  The
    launcher call is the only place where the code registers the directory
    it tracks for deletion, and it comes after the statements that can
    throw: the directory that the launch made is registered nowhere and
    stays. *)
Lemma temporary_profile_not_registered :
  exists c,
    exec [(0%nat, Created "abcdef")]
      (start (call_launchServer a_firefox linux_host devtools_options local_ None None)) = Some c /\
    In (EvDone (Mkdtemp "/tmp/playwright_dev_firefox_profile-") (Created "abcdef")) (log c) /\
    last (log c) = Some (EvSettled (Threw devtools_error)) /\
    forall schedule c',
      exec schedule (start (call_launchServer a_firefox linux_host devtools_options local_ None None)) = Some c' ->
      launcher_called (log c') = false.
Proof.
  eexists. split; [reflexivity|]. split; [vm_compute; tauto|].
  split; [vm_compute; reflexivity|].
  intros schedule c' He.
  destruct (launcher_called (log c')) eqn:Hc; [exfalso|reflexivity].
  apply existsb_exists in Hc as (e & Hin & He').
  apply in_split in Hin as (pre & post & E).
  apply (safe_sound _ never_spawns_monotone _ _ _
           (launch_never_spawns a_firefox linux_host devtools_options local_ None None eq_refl eq_refl)
           He pre e post E).
  destruct e as [[]| | |]; try discriminate He'. exact I.
Qed.

(** ** The profile and the spawn *)

Lemma pending_safe_later (P : event -> Prop) t : forall l,
  safe_later P t -> Forall (suspended_ok (fun _ => P) l) (snd (run t)).
Proof.
  induction t as [a|m|e k IH|op k IH|child k IHc IHk] using task_unit_ind;
    intros l Hs; simpl in *.
  - constructor.
  - constructor.
  - specialize (IH l Hs). destruct (run k) as [es ss]. exact IH.
  - constructor; [|constructor]. exists []. split; [apply sublist_nil_l|]. exact Hs.
  - destruct Hs as [Hc Hk]. specialize (IHc l Hc). specialize (IHk l Hk).
    destruct (run child) as [es1 ss1], (run k) as [es2 ss2]; simpl in *.
    apply Forall_app. split; assumption.
Qed.

Lemma no_launch_call_monotone : monotone no_launch_call.
Proof. intros h h' e _ H. exact H. Qed.

(** When the events after [l0] hold no call of the launcher, a call of the
    launcher in the whole log lies in [l0]. *)
Lemma launch_call_in_prefix l0 ext pre x post :
  l0 ++ ext = pre ++ x :: post ->
  is_launch_call x ->
  ext_ok no_launch_call l0 ext ->
  exists post0, l0 = pre ++ x :: post0.
Proof.
  intros E Hx Hext. apply app_eq_app in E as [l [[-> E]|[-> E]]].
  - destruct l as [|y l].
    + exfalso. simpl in E. apply (Hext [] x post); [symmetry; exact E|exact Hx].
    + injection E as <- _. eauto.
  - exfalso. apply (Hext l x post); [exact E|exact Hx].
Qed.

Lemma launch_call_onwards schedule c c' pre x post :
  Forall (suspended_ok no_launch_call (log c)) (pending c) ->
  exec schedule c = Some c' ->
  log c' = pre ++ x :: post ->
  is_launch_call x ->
  exists post0, log c = pre ++ x :: post0.
Proof.
  intros Hp He E Hx.
  destruct (safe_onwards _ no_launch_call_monotone _ _ _ Hp He) as (ext & El & Hext).
  rewrite El in E. eapply launch_call_in_prefix; eassumption.
Qed.

Ltac run_later :=
  repeat (simpl;
    match goal with
    | |- True => exact I
    | |- _ /\ _ => split
    | |- forall _, _ => intro
    | |- safe_later _ _ => first [settle_cases | branch_cases]
    | |- safe _ _ _ => first [settle_cases | branch_cases]
    | |- _ => first [settle_cases | solve [unfold is_launch_call; simpl; tauto]]
    end).

(** The log of the first run of the launch, split at a call of the
    launcher. *)
Ltac split_first_run E :=
  repeat (simpl in E;
    match type of E with
    | context [lift ?c] => destruct c as [?|?] eqn:?
    | context [match ?p with (_, _) => _ end] => is_var p; destruct p
    | context [match JS.truthy ?x with _ => _ end] => destruct (JS.truthy x) as [?|] eqn:?
    end);
  simpl in E;
  match type of E with
  | _ = ?pre ++ _ =>
      destruct pre as [|? [|? [|? [|? [|? ?]]]]]; simpl in E; try discriminate E;
      injection E as E; repeat (try discriminate E; injection E as ? E); subst
  end.

(** C8 fails on the code: in every run, when the process launcher is
    called, the only event of a write so far is the start of the write of
    user.js.  That write has not ended, and the write of prefs.js, which
    [populateProfile] starts after it, has not begun: [populateProfile] is
    called without await. *)
Theorem launch_before_profile_written this host options connectionType userDataDir port
    schedule c pre o post :
  exec schedule (start (call_launchServer this host options connectionType userDataDir port)) = Some c ->
  log c = pre ++ EvCall (LaunchProcess o) :: post ->
  exists dir,
    List.filter is_write pre =
    [EvCall (WriteFile (path_join host dir "user.js") (JS.join JS.LF userJS))].
Proof.
  intros He E. unfold call_launchServer, _launchServer in He.
  destruct (JS.truthy userDataDir) as [dir|] eqn:Hu.
  - exists dir.
    match type of He with exec _ (start ?t) = _ => set (t0 := t) in * end.
    assert (safe_later (fun e => ~ is_launch_call e) t0) as Hq.
    { subst t0. run_later. }
    assert (Forall (suspended_ok no_launch_call (log (start t0))) (pending (start t0))) as Hp.
    { pose proof (pending_safe_later _ t0 (log (start t0)) Hq) as Hp.
      unfold start in *. destruct (run t0). exact Hp. }
    destruct (launch_call_onwards _ _ _ _ _ _ Hp He E I) as (post0 & E0).
    clear - E0. subst t0. unfold start in E0.
    split_first_run E0; reflexivity.
  - destruct schedule as [|[i r] rest].
    + injection He as <-. simpl in E.
      destruct pre as [|? [|? ?]]; discriminate E.
    + cbn [exec] in He.
      match type of He with
      | match ?x with _ => _ end = _ => destruct x as [c1|] eqn:Hr; [|discriminate He]
      end.
      unfold resume in Hr. simpl in Hr.
      destruct i as [|i]; [|discriminate Hr]. simpl in Hr.
      destruct r as [suffix| | | |reason]; try discriminate Hr.
      * destruct (String.length suffix =? 6)%nat; [|discriminate Hr].
        match type of Hr with context [run ?t] => set (t0 := t) in * end.
        assert (safe_later (fun e => ~ is_launch_call e) t0) as Hq.
        { subst t0. run_later. }
        assert (Forall (suspended_ok no_launch_call (log c1)) (pending c1)) as Hp.
        { pose proof (pending_safe_later _ t0 (log c1) Hq) as Hp.
          destruct (run t0) as [es ss]. injection Hr as <-. exact Hp. }
        destruct (launch_call_onwards _ _ _ _ _ _ Hp He E I) as (post0 & E0).
        assert (log c1 = EvCall (Mkdtemp (path_join host (os_tmpdir host)
                                           "playwright_dev_firefox_profile-"))
                         :: EvDone (Mkdtemp (path_join host (os_tmpdir host)
                                               "playwright_dev_firefox_profile-"))
                              (Created suffix) :: fst (run t0)) as El.
        { destruct (run t0) as [es ss]. injection Hr as <-. reflexivity. }
        rewrite El in E0. clear - E0. subst t0.
        split_first_run E0; eexists; reflexivity.
      * injection Hr as <-.
        match type of He with
        | exec _ ?c0 = _ =>
            destruct (launch_call_onwards rest c0 c pre _ post (List.Forall_nil _) He E I)
              as (post0 & E0)
        end.
        simpl in E0. clear - E0.
        destruct pre as [|? [|? [|? [|? ?]]]]; discriminate E0.
Qed.

Lemma launch_before_profile_written_witness :
  exists c,
    exec ready_schedule
      (start (call_launchServer a_firefox linux_host LaunchOptions.empty local_ (Some "/profile") None)) = Some c /\
    log c = take 1 (log c) ++ EvCall (LaunchProcess profile_launch) :: drop 2 (log c) /\
    exists dir,
      List.filter is_write (take 1 (log c)) =
      [EvCall (WriteFile (path_join linux_host dir "user.js") (JS.join JS.LF userJS))].
Proof.
  eexists. split; [reflexivity|]. split; [vm_compute; reflexivity|].
  eapply (launch_before_profile_written a_firefox linux_host LaunchOptions.empty local_
            (Some "/profile") None ready_schedule);
    [reflexivity|vm_compute; reflexivity].
Defined.

(** A whole launch that gets ready and resolves while the write of user.js
    is still pending and the write of prefs.js has not begun. *)
Example ready_before_profile_written :
  exists c,
    exec ready_schedule
      (start (call_launchServer a_firefox linux_host LaunchOptions.empty local_ (Some "/profile") None)) = Some c /\
    List.filter is_write (log c) =
      [EvCall (WriteFile "/profile/user.js" (JS.join JS.LF userJS))] /\
    last (log c) =
      Some (EvSettled (Returned
        {| browserServer :=
             {| server_process := 4242%nat; server_gracefullyClose := 4242%nat;
                wsEndpoint := None |};
           transport := Some {| url := "ws://127.0.0.1:9222/abc" |} |})).
Proof.
  eexists. split; [reflexivity|]. split; vm_compute; reflexivity.
Qed.

(** ** The profile file *)

(** C5: [populateProfile] writes user.js and then prefs.js into the profile
    directory.  The text of user.js has one line for each entry of the
    preference table, in the form user_pref(key, value); with the key and
    the value in JSON; read back, the lines give exactly the keys and the
    values of the table; no key occurs twice; prefs.js is empty. *)
Theorem populateProfile_writes host profilePath :
  exec [(0%nat, Written); (0%nat, Written)] (start (populateProfile host profilePath)) =
    Some {| pending := [];
            log := [EvCall (WriteFile (path_join host profilePath "user.js")
                              (JS.join JS.LF userJS));
                    EvDone (WriteFile (path_join host profilePath "user.js")
                              (JS.join JS.LF userJS)) Written;
                    EvCall (WriteFile (path_join host profilePath "prefs.js") EmptyString);
                    EvDone (WriteFile (path_join host profilePath "prefs.js") EmptyString)
                      Written] |} /\
  lines (JS.join JS.LF userJS) = map user_pref DEFAULT_PREFERENCES /\
  map read_user_pref (lines (JS.join JS.LF userJS)) = map Some DEFAULT_PREFERENCES /\
  NoDup (map fst DEFAULT_PREFERENCES) /\
  length DEFAULT_PREFERENCES = 79%nat.
Proof.
  split; [reflexivity|]. split; [vm_compute; reflexivity|].
  split; [vm_compute; reflexivity|]. split; [|reflexivity].
  apply (bool_decide_unpack _). vm_compute. reflexivity.
Qed.

(** ** The environment *)

Lemma launch_env_frame host env firefoxExecutable name :
  name <> "LD_LIBRARY_PATH" ->
  launch_env host env firefoxExecutable !! name = env !! name.
Proof.
  intros Hn. unfold launch_env. destruct (String.eqb _ _); [|reflexivity].
  apply lookup_insert_ne. congruence.
Qed.

Lemma launch_env_library_path host env firefoxExecutable :
  os_platform host = "linux" ->
  launch_env host env firefoxExecutable !! "LD_LIBRARY_PATH" =
  Some (path_dirname host firefoxExecutable +:+ ":" +:+
        JS.template (process_env host !! "LD_LIBRARY_PATH")).
Proof.
  intros Hp. unfold launch_env. rewrite Hp. simpl. apply lookup_insert_eq.
Qed.

(** C6 fails on the code: on Linux the library search path handed to the
    child is the directory of the executable followed by the value of the
    variable in the environment of the host process, whatever the
    environment the caller gave holds for it; every other variable of the
    caller is handed on unchanged.  A caller that sets LD_LIBRARY_PATH to
    /opt/lib, on a host that does not set it, gets /pw/firefox:undefined. *)
Theorem caller_library_path_clobbered :
  (forall host env env' firefoxExecutable,
     os_platform host = "linux" ->
     launch_env host env firefoxExecutable !! "LD_LIBRARY_PATH" =
     launch_env host env' firefoxExecutable !! "LD_LIBRARY_PATH") /\
  (forall host env firefoxExecutable name,
     name <> "LD_LIBRARY_PATH" ->
     launch_env host env firefoxExecutable !! name = env !! name) /\
  caller_env !! "LD_LIBRARY_PATH" = Some "/opt/lib" /\
  exists env,
    launched_env
      (log (start (call_launchServer a_firefox linux_host caller_env_options local_
                     (Some "/profile") None)))
      = Some env /\
    env !! "LD_LIBRARY_PATH" = Some "/pw/firefox:undefined" /\
    env !! "FOO" = Some "bar".
Proof.
  split; [intros host env env' exe Hp; rewrite !launch_env_library_path by exact Hp;
          reflexivity|].
  split; [exact launch_env_frame|].
  split; [vm_compute; reflexivity|].
  eexists. split; [reflexivity|]. split; vm_compute; reflexivity.
Qed.

(** ** The exit notification *)

Lemma steps_after_exit id l : forall st,
  Supervisor.current st = Supervisor.Exited ->
  Supervisor.notified (Supervisor.steps id st l) = Supervisor.notified st /\
  Supervisor.current (Supervisor.steps id st l) = Supervisor.Exited.
Proof.
  unfold Supervisor.steps.
  induction l as [|s l IH]; intros st Hx; simpl; [split; [reflexivity|exact Hx]|].
  assert (Supervisor.notified (Supervisor.step id st s) = Supervisor.notified st /\
          Supervisor.current (Supervisor.step id st s) = Supervisor.Exited) as [Hn Hc].
  { destruct s; simpl; rewrite ?Hx; simpl; split; (reflexivity || exact Hx). }
  destruct (IH _ Hc) as [H1 H2]. rewrite H1, Hn. split; [reflexivity|exact H2].
Qed.

Lemma steps_before_exit id l : forall st,
  forallb (fun s => negb (Supervisor.is_exit s)) l = true ->
  Supervisor.current st <> Supervisor.Exited ->
  Supervisor.notified (Supervisor.steps id st l) = Supervisor.notified st /\
  Supervisor.current (Supervisor.steps id st l) <> Supervisor.Exited /\
  Supervisor.server (Supervisor.steps id st l) =
    Supervisor.server_after (Supervisor.server st) l.
Proof.
  unfold Supervisor.steps, Supervisor.server_after.
  induction l as [|s l IH]; intros st Hq Hx; simpl; [repeat split; exact Hx|].
  simpl in Hq. apply andb_true_iff in Hq as [Hs Hq].
  assert (Supervisor.notified (Supervisor.step id st s) = Supervisor.notified st /\
          Supervisor.current (Supervisor.step id st s) <> Supervisor.Exited /\
          Supervisor.server (Supervisor.step id st s) =
            match s with Supervisor.Ready _ srv => Some srv | _ => Supervisor.server st end)
    as (Hn & Hc & Hv).
  { destruct s as [ep srv| | |code sig]; simpl in *; try discriminate Hs.
    - repeat split; assumption.
    - destruct (Supervisor.current st) eqn:Ec; try (repeat split; congruence).
      destruct (Supervisor.attemptToGracefullyClose _ _ _); simpl;
        repeat split; congruence.
    - destruct (Supervisor.current st) eqn:Ec; simpl; repeat split; congruence. }
  destruct (IH _ Hq Hc) as (H1 & H2 & H3).
  rewrite H1, Hn, H3, Hv. repeat split. exact H2.
Qed.

Lemma first_exit l :
  forallb (fun s => negb (Supervisor.is_exit s)) l = true \/
  exists before code sig after,
    l = before ++ Supervisor.ProcessExit code sig :: after /\
    forallb (fun s => negb (Supervisor.is_exit s)) before = true.
Proof.
  induction l as [|s l [IH|(before & code & sig & after & -> & Hq)]].
  - left. reflexivity.
  - destruct s as [ep srv| | |code sig]; try (left; exact IH).
    right. exists [], code, sig, l. split; reflexivity.
  - destruct s as [ep srv| | |code' sig'];
      try (right; eexists (_ :: before), code, sig, after; split; [reflexivity|exact Hq]).
    right. exists [], code', sig', (before ++ Supervisor.ProcessExit code sig :: after).
    split; reflexivity.
Qed.

Lemma steps_at_exit id before code sig after :
  forallb (fun s => negb (Supervisor.is_exit s)) before = true ->
  Supervisor.notified
    (Supervisor.steps id Supervisor.launched
       (before ++ Supervisor.ProcessExit code sig :: after)) =
  Supervisor.onkill (Supervisor.server_after None before) code sig.
Proof.
  intros Hq. unfold Supervisor.steps. rewrite fold_left_app. cbn [fold_left].
  destruct (steps_before_exit id before Supervisor.launched Hq) as (Hn & Hc & Hv);
    [discriminate|].
  unfold Supervisor.steps in *.
  set (st := fold_left (Supervisor.step id) before Supervisor.launched) in *.
  assert (Supervisor.step id st (Supervisor.ProcessExit code sig) =
          {| Supervisor.server := Supervisor.server st;
             Supervisor.endpoint := Supervisor.endpoint st;
             Supervisor.current := Supervisor.Exited;
             Supervisor.notified :=
               Supervisor.notified st ++ Supervisor.onkill (Supervisor.server st) code sig;
             Supervisor.sent := Supervisor.sent st;
             Supervisor.killed := Supervisor.killed st |}) as ->.
  { simpl. destruct (Supervisor.current st); [reflexivity|reflexivity|contradiction]. }
  match goal with |- Supervisor.notified (fold_left _ _ ?st') = _ =>
    destruct (steps_after_exit id after st' eq_refl) as [H1 _] end.
  unfold Supervisor.steps in H1. rewrite H1. simpl. rewrite Hn, Hv. reflexivity.
Qed.

(** C7 (as amended): whatever happens to a launched process, in whatever
    order (the readiness of the server, calls of close() and of kill(), the
    exit of the child), at most one exit notification is emitted; the
    first exit of the child emits exactly the notification of [onkill] on
    the server that the launch has constructed by then, with the exit code
    and the signal of that exit: one notification when the server has been
    constructed, none when it has not. *)
Theorem exit_notified_once id l :
  (length (Supervisor.notified (Supervisor.steps id Supervisor.launched l)) <= 1)%nat /\
  (forall before code sig after,
     l = before ++ Supervisor.ProcessExit code sig :: after ->
     forallb (fun s => negb (Supervisor.is_exit s)) before = true ->
     Supervisor.notified (Supervisor.steps id Supervisor.launched l) =
     Supervisor.onkill (Supervisor.server_after None before) code sig) /\
  (forall before code sig after srv,
     l = before ++ Supervisor.ProcessExit code sig :: after ->
     forallb (fun s => negb (Supervisor.is_exit s)) before = true ->
     Supervisor.server_after None before = Some srv ->
     Supervisor.notified (Supervisor.steps id Supervisor.launched l) =
     [{| Supervisor.emitter := srv; Supervisor.exitCode := code;
         Supervisor.signal := sig |}]).
Proof.
  split; [|split].
  - destruct (first_exit l) as [Hq|(before & code & sig & after & -> & Hq)].
    + destruct (steps_before_exit id l Supervisor.launched Hq) as (Hn & _); [discriminate|].
      rewrite Hn. simpl. lia.
    + rewrite steps_at_exit by exact Hq.
      destruct (Supervisor.server_after None before); simpl; lia.
  - intros before code sig after -> Hq. apply steps_at_exit, Hq.
  - intros before code sig after srv -> Hq Hs.
    rewrite steps_at_exit by exact Hq. rewrite Hs. reflexivity.
Qed.

(** close() called twice on a ready server, and then the exit of the
    child: one request to close is sent and one notification is emitted. *)
Example close_twice :
  let st := Supervisor.steps (-9999) Supervisor.launched
              [Supervisor.Ready "ws://127.0.0.1:9222/abc" Supervisor.a_server;
               Supervisor.Close; Supervisor.Close;
               Supervisor.ProcessExit (Some 0) None] in
  Supervisor.notified st =
    [{| Supervisor.emitter := Supervisor.a_server; Supervisor.exitCode := Some 0;
        Supervisor.signal := None |}] /\
  length (Supervisor.sent st) = 1%nat.
Proof. split; reflexivity. Qed.

(** C7, as the spec words it, fails: a child that exits before the
    readiness line is matched gets no exit notification, also when close()
    or kill() was called first, and the launch of such a child rejects,
    with the error of the wait, without a server. *)
Lemma exit_before_readiness_is_silent :
  Supervisor.notified
    (Supervisor.steps (-9999) Supervisor.launched [Supervisor.ProcessExit (Some 1) None]) = [] /\
  Supervisor.notified
    (Supervisor.steps (-9999) Supervisor.launched
       [Supervisor.Close; Supervisor.Kill; Supervisor.ProcessExit None (Some "SIGKILL")]) = [] /\
  exists c,
    exec [(1%nat, Spawned a_process); (1%nat, Observed [Line "starting"; Exit "exited"])]
      (start (call_launchServer a_firefox linux_host LaunchOptions.empty local_ (Some "/profile") None)) = Some c /\
    last (log c) = Some (EvSettled (Threw "exited")).
Proof.
  split; [reflexivity|]. split; [reflexivity|].
  eexists. split; [reflexivity|]. vm_compute. reflexivity.
Qed.

(** * More properties of the code *)

(** ** The call of the launcher *)

Lemma truthy_missing_revision : JS.truthy (Some (missing_revision)) = Some missing_revision.
Proof. reflexivity. Qed.

Lemma _resolveExecutablePath_Returned this host executablePath missingText :
  _resolveExecutablePath this host = Returned (executablePath, missingText) ->
  (exists fetcher,
     _createBrowserFetcher this host (os_arch host) no_fetcher_options = Returned fetcher) /\
  executablePath = revisionExecutablePath (revisionInfo host) /\
  missingText = (if negb (local (revisionInfo host)) then Some missing_revision else None).
Proof.
  unfold _resolveExecutablePath.
  destruct (_createBrowserFetcher this host (os_arch host) no_fetcher_options) as [fetcher|m];
    [|discriminate].
  intros [= <- <-]. split; [exists fetcher; reflexivity|]. split; reflexivity.
Qed.

Lemma _resolveExecutablePath_Threw this host message :
  _resolveExecutablePath this host = Threw message ->
  _createBrowserFetcher this host (os_arch host) no_fetcher_options = Threw message.
Proof.
  unfold _resolveExecutablePath.
  destruct (_createBrowserFetcher this host (os_arch host) no_fetcher_options) as [fetcher|m];
    [discriminate|].
  intros [= <-]. reflexivity.
Qed.

Lemma resolved_from_revision this host executablePath missingText :
  _resolveExecutablePath this host = Returned (executablePath, missingText) ->
  JS.truthy missingText = None ->
  local (revisionInfo host) = true /\
  Firefox_executablePath this host = Returned executablePath.
Proof.
  intros H Ht. unfold Firefox_executablePath. rewrite H. split; [|reflexivity].
  apply _resolveExecutablePath_Returned in H as (_ & _ & ->).
  destruct (local (revisionInfo host)); [reflexivity|discriminate Ht].
Qed.

Ltac shape_done :=
  do 2 eexists; split; [first [reflexivity|eassumption]|]; split;
  [ first
      [ reflexivity
      | eapply resolved_from_revision; eassumption ]
  | split; [reflexivity|]; split; [reflexivity|];
    first [reflexivity | eexists; split; [find_in_list|reflexivity]] ].

(** Every call of the process launcher, in every run, has the same shape:
    it comes in the synchronous run that started the write of user.js, and
    it passes what the launch has computed until then. *)
Lemma launcher_call_shape this host options connectionType userDataDir port
    schedule c pre o post :
  exec schedule (start (call_launchServer this host options connectionType userDataDir port))
    = Some c ->
  log c = pre ++ EvCall (LaunchProcess o) :: post ->
  exists dir a exe,
    firefoxArguments options dir port = Returned a /\
    resolved_executable this host options exe /\
    o = launcher_options host options exe a (temporary_of userDataDir dir) /\
    List.filter is_write pre =
      [EvCall (WriteFile (path_join host dir "user.js") (JS.join JS.LF userJS))] /\
    profile_directory host userDataDir pre dir.
Proof.
  intros He E. unfold call_launchServer, _launchServer in He.
  unfold resolved_executable, profile_directory, temporary_of.
  destruct (JS.truthy userDataDir) as [dir|] eqn:Hu.
  - exists dir.
    match type of He with exec _ (start ?t) = _ => set (t0 := t) in * end.
    assert (safe_later (fun e => ~ is_launch_call e) t0) as Hq.
    { subst t0. run_later. }
    assert (Forall (suspended_ok no_launch_call (log (start t0))) (pending (start t0))) as Hp.
    { pose proof (pending_safe_later _ t0 (log (start t0)) Hq) as Hp.
      unfold start in *. destruct (run t0). exact Hp. }
    destruct (launch_call_onwards _ _ _ _ _ _ Hp He E I) as (post0 & E0).
    clear - E0. subst t0. unfold start in E0.
    split_first_run E0; shape_done.
  - destruct schedule as [|[i r] rest].
    + injection He as <-. simpl in E.
      destruct pre as [|? [|? ?]]; discriminate E.
    + cbn [exec] in He.
      match type of He with
      | match ?x with _ => _ end = _ => destruct x as [c1|] eqn:Hr; [|discriminate He]
      end.
      unfold resume in Hr. simpl in Hr.
      destruct i as [|i]; [|discriminate Hr]. simpl in Hr.
      destruct r as [suffix| | | |reason]; try discriminate Hr.
      * destruct (String.length suffix =? 6)%nat eqn:Hlen; [|discriminate Hr].
        match type of Hr with context [run ?t] => set (t0 := t) in * end.
        assert (safe_later (fun e => ~ is_launch_call e) t0) as Hq.
        { subst t0. run_later. }
        assert (Forall (suspended_ok no_launch_call (log c1)) (pending c1)) as Hp.
        { pose proof (pending_safe_later _ t0 (log c1) Hq) as Hp.
          destruct (run t0) as [es ss]. injection Hr as <-. exact Hp. }
        destruct (launch_call_onwards _ _ _ _ _ _ Hp He E I) as (post0 & E0).
        assert (log c1 = EvCall (Mkdtemp (path_join host (os_tmpdir host)
                                           "playwright_dev_firefox_profile-"))
                         :: EvDone (Mkdtemp (path_join host (os_tmpdir host)
                                               "playwright_dev_firefox_profile-"))
                              (Created suffix) :: fst (run t0)) as El.
        { destruct (run t0) as [es ss]. injection Hr as <-. reflexivity. }
        rewrite El in E0. clear - E0 Hlen. subst t0.
        exists (path_join host (os_tmpdir host) "playwright_dev_firefox_profile-" +:+ suffix).
        split_first_run E0; rewrite truthy_made by exact Hlen; shape_done.
      * injection Hr as <-.
        match type of He with
        | exec _ ?c0 = _ =>
            destruct (launch_call_onwards rest c0 c pre _ post (List.Forall_nil _) He E I)
              as (post0 & E0)
        end.
        simpl in E0. clear - E0.
        destruct pre as [|? [|? [|? [|? ?]]]]; discriminate E0.
Qed.

(** X1: whenever a launch calls the process launcher, the executable it
    passes is the [executablePath] of the options when that is a non-empty
    string; otherwise it is the executable of the downloaded revision, the
    one [Firefox.executablePath()] returns, and the revision is there. *)
Theorem launcher_gets_resolved_executable this host options connectionType userDataDir port
    schedule c pre o post :
  exec schedule (start (call_launchServer this host options connectionType userDataDir port))
    = Some c ->
  log c = pre ++ EvCall (LaunchProcess o) :: post ->
  resolved_executable this host options (LaunchProcessOptions.executablePath o).
Proof.
  intros He E.
  destruct (launcher_call_shape _ _ _ _ _ _ _ _ _ _ _ He E)
    as (dir & a & exe & _ & Hx & -> & _).
  exact Hx.
Qed.

Lemma launcher_gets_resolved_executable_witness :
  exists c,
    exec ready_schedule
      (start (call_launchServer a_firefox linux_host LaunchOptions.empty local_ (Some "/profile") None))
      = Some c /\
    log c = take 1 (log c) ++ EvCall (LaunchProcess profile_launch) :: drop 2 (log c) /\
    resolved_executable a_firefox linux_host LaunchOptions.empty
      (LaunchProcessOptions.executablePath profile_launch).
Proof.
  eexists. split; [reflexivity|].
  match goal with
  | |- log ?c = ?pre ++ _ :: ?post /\ _ =>
      split; [vm_compute; reflexivity|];
      apply (launcher_gets_resolved_executable a_firefox linux_host LaunchOptions.empty local_
               (Some "/profile") None ready_schedule c pre profile_launch post);
      [reflexivity|vm_compute; reflexivity]
  end.
Defined.

(** X2: when the options name no executable and the revision is not
    downloaded, no run of the launch calls the process launcher.  A launch
    into a directory of the caller whose arguments assemble rejects in its
    first synchronous run, when it has started to write user.js into the
    profile directory and nothing else: with the text that says that the
    revision is not downloaded where the fetcher can be made for the
    platform of the host, and with the error of [_createBrowserFetcher]
    (Unsupported platform) where it cannot. *)
Theorem missing_revision_rejects this host options connectionType userDataDir port :
  JS.truthy (LaunchOptions.executablePath options) = None ->
  local (revisionInfo host) = false ->
  (forall schedule c,
     exec schedule (start (call_launchServer this host options connectionType userDataDir port))
       = Some c ->
     launcher_called (log c) = false) /\
  (forall dir a,
     JS.truthy userDataDir = Some dir ->
     firefoxArguments options dir port = Returned a ->
     (forall fetcher,
        _createBrowserFetcher this host (os_arch host) no_fetcher_options = Returned fetcher ->
        log (start (call_launchServer this host options connectionType userDataDir port)) =
          [EvCall (WriteFile (path_join host dir "user.js") (JS.join JS.LF userJS));
           EvSettled (Threw missing_revision)]) /\
     (forall message,
        _createBrowserFetcher this host (os_arch host) no_fetcher_options = Threw message ->
        log (start (call_launchServer this host options connectionType userDataDir port)) =
          [EvCall (WriteFile (path_join host dir "user.js") (JS.join JS.LF userJS));
           EvSettled (Threw message)])).
Proof.
  intros Hx Hl. split.
  - intros schedule c He.
    destruct (launcher_called (log c)) eqn:Hc; [exfalso|reflexivity].
    apply existsb_exists in Hc as (e & Hin & He').
    apply in_split in Hin as (pre & post & E).
    destruct e as [[| |o|]| | |]; try discriminate He'.
    destruct (launcher_call_shape _ _ _ _ _ _ _ _ _ _ _ He E) as (dir & a & exe & _ & Hr & _).
    unfold resolved_executable in Hr. rewrite Hx in Hr. destruct Hr as [Hr _]. congruence.
  - intros dir a Hu Ha. split.
    + intros fetcher Hf. unfold call_launchServer, _launchServer.
      rewrite Hu, Hx. unfold _resolveExecutablePath. rewrite Hf, Hl.
      simpl. rewrite Ha. simpl. reflexivity.
    + intros message Hf. unfold call_launchServer, _launchServer.
      rewrite Hu, Hx. unfold _resolveExecutablePath. rewrite Hf.
      simpl. rewrite Ha. simpl. reflexivity.
Qed.

Lemma missing_revision_rejects_witness :
  JS.truthy (LaunchOptions.executablePath LaunchOptions.empty) = None /\
  local (revisionInfo bare_host) = false /\
  (forall schedule c,
     exec schedule (start (call_launchServer a_firefox bare_host LaunchOptions.empty local_
                             (Some "/profile") None)) = Some c ->
     launcher_called (log c) = false) /\
  (forall dir a,
     JS.truthy (Some "/profile") = Some dir ->
     firefoxArguments LaunchOptions.empty dir None = Returned a ->
     (forall fetcher,
        _createBrowserFetcher a_firefox bare_host (os_arch bare_host) no_fetcher_options =
          Returned fetcher ->
        log (start (call_launchServer a_firefox bare_host LaunchOptions.empty local_
                      (Some "/profile") None)) =
          [EvCall (WriteFile (path_join bare_host dir "user.js") (JS.join JS.LF userJS));
           EvSettled (Threw missing_revision)]) /\
     (forall message,
        _createBrowserFetcher a_firefox bare_host (os_arch bare_host) no_fetcher_options =
          Threw message ->
        log (start (call_launchServer a_firefox bare_host LaunchOptions.empty local_
                      (Some "/profile") None)) =
          [EvCall (WriteFile (path_join bare_host dir "user.js") (JS.join JS.LF userJS));
           EvSettled (Threw message)])).
Proof.
  split; [reflexivity|]. split; [reflexivity|].
  exact (missing_revision_rejects a_firefox bare_host LaunchOptions.empty local_ (Some "/profile") None
           eq_refl eq_refl).
Defined.

Lemma _defaultArgs_Returned options userDataDir port a :
  _defaultArgs options userDataDir port = Returned a -> refused options = false.
Proof.
  intros H. destruct (refused options) eqn:Hr; [|reflexivity].
  rewrite _defaultArgs_refused in H by exact Hr. discriminate H.
Qed.

(** X3: with the default arguments taken as they are, every call of the
    process launcher names after -profile the very directory into which
    the write of user.js has been started: the directory of the caller, or
    the one [fs.mkdtemp] made, which is then also the one registered for
    deletion. *)
Theorem profile_argument_is_populated_directory this host options connectionType userDataDir
    port schedule c pre o post :
  takes_defaults options = true ->
  exec schedule (start (call_launchServer this host options connectionType userDataDir port))
    = Some c ->
  log c = pre ++ EvCall (LaunchProcess o) :: post ->
  exists dir,
    LaunchProcessOptions.args o !! 2%nat = Some "-profile" /\
    LaunchProcessOptions.args o !! 3%nat = Some dir /\
    In (EvCall (WriteFile (path_join host dir "user.js") (JS.join JS.LF userJS))) pre /\
    profile_directory host userDataDir pre dir /\
    LaunchProcessOptions.tempDir o = temporary_of userDataDir dir.
Proof.
  intros Ht He E.
  destruct (launcher_call_shape _ _ _ _ _ _ _ _ _ _ _ He E)
    as (dir & a & exe & Ha & _ & -> & Hw & Hd).
  exists dir. unfold firefoxArguments, takes_defaults in *.
  destruct (default (IgnoreAll false) _) as [[|]|]; try discriminate Ht.
  pose proof (_defaultArgs_Returned _ _ _ _ Ha) as Hr.
  rewrite _defaultArgs_accepted in Ha by exact Hr. injection Ha as <-.
  split; [reflexivity|]. split; [reflexivity|]. split; [|split; [exact Hd|reflexivity]].
  apply (filter_In is_write). rewrite Hw. left. reflexivity.
Qed.

Lemma profile_argument_is_populated_directory_witness :
  exists c,
    takes_defaults LaunchOptions.empty = true /\
    exec [(0%nat, Created "abcdef")]
      (start (call_launchServer a_firefox linux_host LaunchOptions.empty local_ None None)) = Some c /\
    log c = take 3 (log c) ++ EvCall (LaunchProcess temporary_launch) :: drop 4 (log c) /\
    exists dir,
      LaunchProcessOptions.args temporary_launch !! 2%nat = Some "-profile" /\
      LaunchProcessOptions.args temporary_launch !! 3%nat = Some dir /\
      In (EvCall (WriteFile (path_join linux_host dir "user.js") (JS.join JS.LF userJS)))
         (take 3 (log c)) /\
      profile_directory linux_host None (take 3 (log c)) dir /\
      LaunchProcessOptions.tempDir temporary_launch = temporary_of None dir.
Proof.
  eexists. split; [reflexivity|]. split; [reflexivity|]. split; [vm_compute; reflexivity|].
  eapply (profile_argument_is_populated_directory a_firefox linux_host LaunchOptions.empty local_
            None None [(0%nat, Created "abcdef")]);
    [reflexivity|reflexivity|vm_compute; reflexivity].
Defined.

(** X4: the environment of every call of the process launcher.  Off Linux
    it is the environment of the options, or the one of the host process
    when the options give none, with nothing added.  On Linux every
    variable but LD_LIBRARY_PATH is as in that environment, and when the
    options give no environment and the host process has LD_LIBRARY_PATH
    set, the child gets the directory of the executable it is started
    from, a colon, and that value. *)
Theorem child_environment this host options connectionType userDataDir port
    schedule c pre o post :
  exec schedule (start (call_launchServer this host options connectionType userDataDir port))
    = Some c ->
  log c = pre ++ EvCall (LaunchProcess o) :: post ->
  (os_platform host <> "linux" ->
   LaunchProcessOptions.env o = default (process_env host) (LaunchOptions.env options)) /\
  (forall name, name <> "LD_LIBRARY_PATH" ->
   LaunchProcessOptions.env o !! name =
   default (process_env host) (LaunchOptions.env options) !! name) /\
  (forall value,
   os_platform host = "linux" ->
   LaunchOptions.env options = None ->
   process_env host !! "LD_LIBRARY_PATH" = Some value ->
   LaunchProcessOptions.env o !! "LD_LIBRARY_PATH" =
   Some (path_dirname host (LaunchProcessOptions.executablePath o) +:+ ":" +:+ value)).
Proof.
  intros He E.
  destruct (launcher_call_shape _ _ _ _ _ _ _ _ _ _ _ He E)
    as (dir & a & exe & _ & _ & -> & _).
  cbn [launcher_options LaunchProcessOptions.env LaunchProcessOptions.executablePath].
  split; [|split].
  - intros Hp. unfold launch_env.
    destruct (String.eqb_spec (os_platform host) "linux"); [contradiction|reflexivity].
  - intros name Hn. apply launch_env_frame, Hn.
  - intros value Hp _ Hv. rewrite launch_env_library_path by exact Hp.
    rewrite Hv. reflexivity.
Qed.

Lemma child_environment_witness :
  exists c,
    exec ready_schedule
      (start (call_launchServer a_firefox library_host LaunchOptions.empty local_ (Some "/profile") None))
      = Some c /\
    log c = take 1 (log c) ++ EvCall (LaunchProcess library_launch) :: drop 2 (log c) /\
    (os_platform library_host <> "linux" ->
     LaunchProcessOptions.env library_launch =
     default (process_env library_host) (LaunchOptions.env LaunchOptions.empty)) /\
    (forall name, name <> "LD_LIBRARY_PATH" ->
     LaunchProcessOptions.env library_launch !! name =
     default (process_env library_host) (LaunchOptions.env LaunchOptions.empty) !! name) /\
    (forall value,
     os_platform library_host = "linux" ->
     LaunchOptions.env LaunchOptions.empty = None ->
     process_env library_host !! "LD_LIBRARY_PATH" = Some value ->
     LaunchProcessOptions.env library_launch !! "LD_LIBRARY_PATH" =
     Some (path_dirname library_host (LaunchProcessOptions.executablePath library_launch)
           +:+ ":" +:+ value)).
Proof.
  eexists. split; [reflexivity|].
  match goal with
  | |- log ?c = ?pre ++ _ :: ?post /\ _ =>
      split; [vm_compute; reflexivity|];
      apply (child_environment a_firefox library_host LaunchOptions.empty local_
               (Some "/profile") None ready_schedule c pre library_launch post);
      [reflexivity|vm_compute; reflexivity]
  end.
Defined.

(** On the host that sets LD_LIBRARY_PATH to /usr/lib, a caller without an
    environment of its own gets the directory of the executable put in
    front of it. *)
Example library_path_extended :
  LaunchProcessOptions.env library_launch !! "LD_LIBRARY_PATH" = Some "/pw/firefox:/usr/lib".
Proof. vm_compute. reflexivity. Qed.

(** ** Every event of a launch *)

Lemma firefoxArguments_Threw options dir port m :
  firefoxArguments options dir port = Threw m ->
  validates options = true /\ refused options = true /\ m = refusal options.
Proof.
  unfold firefoxArguments, validates. intros H.
  destruct (refused options) eqn:Hr.
  - destruct (default (IgnoreAll false) _) as [[|]|denied]; [discriminate H| |];
      rewrite _defaultArgs_refused in H by exact Hr; simpl in H; injection H as <-;
      repeat split.
  - destruct (default (IgnoreAll false) _) as [[|]|denied]; [discriminate H| |];
      rewrite _defaultArgs_accepted in H by exact Hr; discriminate H.
Qed.

Lemma waitForLine_Threw regex timeoutError out m :
  waitForLine regex timeoutError out = Some (Threw m) ->
  m = timeoutError \/ In (Exit m) out.
Proof.
  induction out as [|[text|error|] out IH]; unfold waitForLine; fold waitForLine.
  - discriminate.
  - destruct (regex_match regex text); [discriminate|].
    intros H. destruct (IH H) as [->|Hin]; [left; reflexivity|right; right; exact Hin].
  - intros [= <-]. right. left. reflexivity.
  - intros [= <-]. left. reflexivity.
Qed.

Lemma missing_from_revision this host executablePath missingText text :
  _resolveExecutablePath this host = Returned (executablePath, missingText) ->
  JS.truthy missingText = Some text ->
  (exists fetcher,
     _createBrowserFetcher this host (os_arch host) no_fetcher_options = Returned fetcher) /\
  local (revisionInfo host) = false /\ text = missing_revision.
Proof.
  intros H Ht. apply _resolveExecutablePath_Returned in H as (Hf & _ & ->).
  split; [exact Hf|].
  destruct (local (revisionInfo host)); [discriminate Ht|].
  injection Ht as <-. split; reflexivity.
Qed.

Lemma rejection_cause_monotone this host options : monotone (rejection_cause this host options).
Proof.
  intros h h' e Hs H m E.
  destruct (H m E) as [(p & Hi)|[Hr|[Hf|[Hx|[(o & Hi)|(p & out & Hi & Hm)]]]]].
  - left. exists p. eapply sublist_In; eassumption.
  - right. left. exact Hr.
  - right. right. left. exact Hf.
  - right. right. right. left. exact Hx.
  - right. right. right. right. left. exists o. eapply sublist_In; eassumption.
  - right. right. right. right. right. exists p, out.
    split; [eapply sublist_In; eassumption|exact Hm].
Qed.

Lemma launch_rejection_cause this host options connectionType userDataDir port :
  safe (rejection_cause this host options) []
    (call_launchServer this host options connectionType userDataDir port).
Proof.
  unfold call_launchServer, _launchServer.
  run_task ltac:(unfold rejection_cause; first
    [ solve [intros ? [=]]
    | intros ? [= <-]; first
        [ solve [left; eexists; find_in_list]
        | solve [right; left; eapply firefoxArguments_Threw; eassumption]
        | solve [right; right; left; split; [assumption|];
                 eapply _resolveExecutablePath_Threw; eassumption]
        | solve [right; right; right; left; split; [assumption|];
                 eapply missing_from_revision; eassumption]
        | solve [right; right; right; right; left; eexists; find_in_list]
        | solve [right; right; right; right; right; do 2 eexists; split; [find_in_list|];
                 eapply waitForLine_Threw; eassumption] ] ]).
Qed.

(** X5: in every run, a launch that rejects does so for one of six
    reasons, with the text of that reason: [fs.mkdtemp] failed; the
    arguments were refused; no executable was named and the fetcher cannot
    be made for the platform of the host; no executable was named and the
    revision is not downloaded; the process launcher failed; or the wait
    for the readiness line failed, by the timeout with the message that
    names the timeout of the options (30000 by default, a safe integer) or
    by the exit of the process with the error that comes with it.  The
    writes of the profile are not among them. *)
Theorem rejection_has_a_cause this host options connectionType userDataDir port
    schedule c pre m post :
  JS.safe_integer (default 30000 (LaunchOptions.timeout options)) ->
  exec schedule (start (call_launchServer this host options connectionType userDataDir port))
    = Some c ->
  log c = pre ++ EvSettled (Threw m) :: post ->
  (exists prefix, In (EvDone (Mkdtemp prefix) (Failed m)) pre) \/
  (validates options = true /\ refused options = true /\ m = refusal options) \/
  (JS.truthy (LaunchOptions.executablePath options) = None /\
   _createBrowserFetcher this host (os_arch host) no_fetcher_options = Threw m) \/
  (JS.truthy (LaunchOptions.executablePath options) = None /\
   (exists fetcher,
      _createBrowserFetcher this host (os_arch host) no_fetcher_options = Returned fetcher) /\
   local (revisionInfo host) = false /\ m = missing_revision) \/
  (exists o, In (EvDone (LaunchProcess o) (Failed m)) pre) \/
  (exists process out,
     In (EvDone (WaitForLine process juggler_regex
                   (default 30000 (LaunchOptions.timeout options))
                   (timeout_message (default 30000 (LaunchOptions.timeout options))))
           (Observed out)) pre /\
     (m = timeout_message (default 30000 (LaunchOptions.timeout options)) \/
      In (Exit m) out)).
Proof.
  intros _ He E.
  exact (safe_sound _ (rejection_cause_monotone this host options) _ _ _
           (launch_rejection_cause this host options connectionType userDataDir port) He
           pre _ post E m eq_refl).
Qed.

Lemma rejection_has_a_cause_witness :
  JS.safe_integer (default 30000 (LaunchOptions.timeout LaunchOptions.empty)) /\
  exists c,
    exec timeout_schedule
      (start (call_launchServer a_firefox linux_host LaunchOptions.empty local_ (Some "/profile") None))
      = Some c /\
    log c = take 5 (log c)
            ++ EvSettled (Threw "Timed out after 30000 ms while trying to connect to Firefox!")
            :: drop 6 (log c) /\
    ((exists prefix,
        In (EvDone (Mkdtemp prefix)
              (Failed "Timed out after 30000 ms while trying to connect to Firefox!"))
           (take 5 (log c))) \/
     (validates LaunchOptions.empty = true /\ refused LaunchOptions.empty = true /\
      "Timed out after 30000 ms while trying to connect to Firefox!" =
        refusal LaunchOptions.empty) \/
     (JS.truthy (LaunchOptions.executablePath LaunchOptions.empty) = None /\
      _createBrowserFetcher a_firefox linux_host (os_arch linux_host) no_fetcher_options =
        Threw "Timed out after 30000 ms while trying to connect to Firefox!") \/
     (JS.truthy (LaunchOptions.executablePath LaunchOptions.empty) = None /\
      (exists fetcher,
         _createBrowserFetcher a_firefox linux_host (os_arch linux_host) no_fetcher_options =
           Returned fetcher) /\
      local (revisionInfo linux_host) = false /\
      "Timed out after 30000 ms while trying to connect to Firefox!" = missing_revision) \/
     (exists o,
        In (EvDone (LaunchProcess o)
              (Failed "Timed out after 30000 ms while trying to connect to Firefox!"))
           (take 5 (log c))) \/
     (exists process out,
        In (EvDone (WaitForLine process juggler_regex
                      (default 30000 (LaunchOptions.timeout LaunchOptions.empty))
                      (timeout_message
                         (default 30000 (LaunchOptions.timeout LaunchOptions.empty))))
              (Observed out)) (take 5 (log c)) /\
        ("Timed out after 30000 ms while trying to connect to Firefox!" =
           timeout_message (default 30000 (LaunchOptions.timeout LaunchOptions.empty)) \/
         In (Exit "Timed out after 30000 ms while trying to connect to Firefox!") out))).
Proof.
  assert (JS.safe_integer (default 30000 (LaunchOptions.timeout LaunchOptions.empty))) as Hs.
  { unfold JS.safe_integer. cbn [default LaunchOptions.timeout LaunchOptions.empty]. lia. }
  split; [exact Hs|].
  eexists. split; [reflexivity|].
  match goal with
  | |- log ?c = ?pre ++ EvSettled (Threw ?m) :: ?post /\ _ =>
      split; [vm_compute; reflexivity|];
      apply (rejection_has_a_cause a_firefox linux_host LaunchOptions.empty local_
               (Some "/profile") None timeout_schedule c pre m post Hs);
      [reflexivity|vm_compute; reflexivity]
  end.
Defined.

(** On a host for whose platform there is no build, a launch without an
    executable of the caller rejects with the error of the fetcher. *)
Example unsupported_host_rejects :
  log (start (call_launchServer a_firefox freebsd_host LaunchOptions.empty local_
                (Some "/profile") None)) =
    [EvCall (WriteFile "/profile/user.js" (JS.join JS.LF userJS));
     EvSettled (Threw "Unsupported platform: freebsd")].
Proof. vm_compute. reflexivity. Qed.

Lemma profile_write_monotone host : monotone (profile_write host).
Proof.
  intros h h' e Hs H file data E.
  destruct (H file data E) as (dir & [Hu|(Hf & Hd & Hi)]); exists dir.
  - left. exact Hu.
  - right. split; [exact Hf|]. split; [exact Hd|]. eapply sublist_In; eassumption.
Qed.

Lemma launch_profile_write this host options connectionType userDataDir port :
  safe (profile_write host) []
    (call_launchServer this host options connectionType userDataDir port).
Proof.
  unfold call_launchServer, _launchServer.
  run_task ltac:(unfold profile_write; first
    [ solve [intros ? ? [=]]
    | solve [intros ? ? [= <- <-]; eexists; left; split; reflexivity]
    | solve [intros ? ? [= <- <-]; eexists; right; split; [reflexivity|];
             split; [reflexivity|find_in_list] ] ]).
Qed.

(** X6: in every run of a launch, each file written is user.js, with the
    statements of the preference table, or prefs.js, empty; and prefs.js
    is written only into a directory whose user.js has been written with
    success before.  A failed write of user.js is thus never followed by a
    write of prefs.js. *)
Theorem prefs_written_after_user this host options connectionType userDataDir port
    schedule c pre file data post :
  exec schedule (start (call_launchServer this host options connectionType userDataDir port))
    = Some c ->
  log c = pre ++ EvCall (WriteFile file data) :: post ->
  exists dir,
    (file = path_join host dir "user.js" /\ data = JS.join JS.LF userJS) \/
    (file = path_join host dir "prefs.js" /\ data = EmptyString /\
     In (EvDone (WriteFile (path_join host dir "user.js") (JS.join JS.LF userJS)) Written) pre).
Proof.
  intros He E.
  exact (safe_sound _ (profile_write_monotone host) _ _ _
           (launch_profile_write this host options connectionType userDataDir port) He
           pre _ post E file data eq_refl).
Qed.

Lemma prefs_written_after_user_witness :
  exists c,
    exec written_schedule
      (start (call_launchServer a_firefox linux_host LaunchOptions.empty local_ (Some "/profile") None))
      = Some c /\
    log c = take 3 (log c) ++ EvCall (WriteFile "/profile/prefs.js" EmptyString)
            :: drop 4 (log c) /\
    exists dir,
      ("/profile/prefs.js" = path_join linux_host dir "user.js" /\
       EmptyString = JS.join JS.LF userJS) \/
      ("/profile/prefs.js" = path_join linux_host dir "prefs.js" /\
       EmptyString = EmptyString /\
       In (EvDone (WriteFile (path_join linux_host dir "user.js") (JS.join JS.LF userJS))
             Written) (take 3 (log c))).
Proof.
  eexists. split; [reflexivity|].
  match goal with
  | |- log ?c = ?pre ++ EvCall (WriteFile ?f ?d) :: ?post /\ _ =>
      split; [vm_compute; reflexivity|];
      apply (prefs_written_after_user a_firefox linux_host LaunchOptions.empty local_
               (Some "/profile") None written_schedule c pre f d post);
      [reflexivity|vm_compute; reflexivity]
  end.
Defined.

Lemma uses_spawned_process_monotone connectionType :
  monotone (uses_spawned_process connectionType).
Proof.
  intros h h' e Hs. destruct e as [[| | |p re t te]| |[s|t]|]; simpl; try tauto.
  - intros (o & r & Hi & Hp). exists o, r. split; [eapply sublist_In; eassumption|exact Hp].
  - intros (He & o & r & Hi & Hp). split; [exact He|].
    exists o, r. split; [eapply sublist_In; eassumption|exact Hp].
Qed.

Lemma launch_uses_spawned_process this host options connectionType userDataDir port :
  safe (uses_spawned_process connectionType) []
    (call_launchServer this host options connectionType userDataDir port).
Proof.
  unfold call_launchServer, _launchServer.
  run_task ltac:(unfold uses_spawned_process; cbn; first
    [ solve [exact I]
    | solve [assumption]
    | solve [congruence]
    | solve [do 2 eexists; split; [find_in_list|reflexivity]]
    | solve [do 2 eexists; split; [find_in_list|split; reflexivity]] ]).
Qed.

(** X7: in the server mode no run of a launch constructs a
    WebSocketTransport, and outside the server mode every BrowserServer a
    launch constructs is without an endpoint: the endpoint leaves the
    launch either on the server or in a transport, never both. *)
Theorem endpoint_on_server_or_transport this host options connectionType userDataDir port
    schedule c :
  exec schedule (start (call_launchServer this host options connectionType userDataDir port))
    = Some c ->
  (forall t, In (EvNew (NewWebSocketTransport t)) (log c) -> is_server connectionType = false) /\
  (forall s, In (EvNew (NewBrowserServer s)) (log c) ->
     is_server connectionType = false -> wsEndpoint s = None).
Proof.
  intros He.
  pose proof (safe_sound _ (uses_spawned_process_monotone connectionType) _ _ _
                (launch_uses_spawned_process this host options connectionType userDataDir port) He)
    as Hok.
  split.
  - intros t Hin. apply in_split in Hin as (pre & post & E). exact (Hok pre _ post E).
  - intros s Hin. apply in_split in Hin as (pre & post & E).
    destruct (Hok pre _ post E) as [H _]. exact H.
Qed.

Lemma endpoint_on_server_or_transport_witness :
  exists c,
    exec ready_schedule
      (start (call_launchServer a_firefox linux_host LaunchOptions.empty server_ (Some "/profile") None))
      = Some c /\
    (forall t, In (EvNew (NewWebSocketTransport t)) (log c) -> is_server server_ = false) /\
    (forall s, In (EvNew (NewBrowserServer s)) (log c) ->
       is_server server_ = false -> wsEndpoint s = None).
Proof.
  eexists. split; [reflexivity|].
  eapply (endpoint_on_server_or_transport a_firefox linux_host LaunchOptions.empty server_
            (Some "/profile") None ready_schedule).
  reflexivity.
Defined.

(** X8: in every run of a launch, the wait for the readiness line watches
    the process that the launcher has returned, and a BrowserServer is
    constructed on that process and on the close function returned with
    it. *)
Theorem server_on_spawned_process this host options connectionType userDataDir port
    schedule c :
  exec schedule (start (call_launchServer this host options connectionType userDataDir port))
    = Some c ->
  (forall pre process regex timeout timeoutError post,
     log c = pre ++ EvCall (WaitForLine process regex timeout timeoutError) :: post ->
     exists o r,
       In (EvDone (LaunchProcess o) (Spawned r)) pre /\ process = launchedProcess r) /\
  (forall pre s post,
     log c = pre ++ EvNew (NewBrowserServer s) :: post ->
     exists o r,
       In (EvDone (LaunchProcess o) (Spawned r)) pre /\
       server_process s = launchedProcess r /\
       server_gracefullyClose s = gracefullyClose r).
Proof.
  intros He.
  pose proof (safe_sound _ (uses_spawned_process_monotone connectionType) _ _ _
                (launch_uses_spawned_process this host options connectionType userDataDir port) He)
    as Hok.
  split.
  - intros pre process regex timeout timeoutError post E. exact (Hok pre _ post E).
  - intros pre s post E. destruct (Hok pre _ post E) as [_ H]. exact H.
Qed.

Lemma server_on_spawned_process_witness :
  exists c,
    exec ready_schedule
      (start (call_launchServer a_firefox linux_host LaunchOptions.empty server_ (Some "/profile") None))
      = Some c /\
    (forall pre process regex timeout timeoutError post,
       log c = pre ++ EvCall (WaitForLine process regex timeout timeoutError) :: post ->
       exists o r,
         In (EvDone (LaunchProcess o) (Spawned r)) pre /\ process = launchedProcess r) /\
    (forall pre s post,
       log c = pre ++ EvNew (NewBrowserServer s) :: post ->
       exists o r,
         In (EvDone (LaunchProcess o) (Spawned r)) pre /\
         server_process s = launchedProcess r /\
         server_gracefullyClose s = gracefullyClose r).
Proof.
  eexists. split; [reflexivity|].
  eapply (server_on_spawned_process a_firefox linux_host LaunchOptions.empty server_
            (Some "/profile") None ready_schedule).
  reflexivity.
Defined.

(** ** More on the arguments *)

(** X9: the refusals of [_defaultArgs] and their order.  A devtools request
    is refused with the devtools message whatever the arguments are;
    without one, an argument that starts with -profile or --profile is
    refused with the profile message, also when another argument starts
    with -juggler; without either, an argument that starts with -juggler is
    refused with the juggler message; and when no argument starts with any
    of the three, a list is returned. *)
Theorem defaultArgs_refusal_order options userDataDir port :
  (default false (LaunchOptions.devtools options) = true ->
   _defaultArgs options userDataDir port = Threw devtools_error) /\
  (default false (LaunchOptions.devtools options) = false ->
   (exists arg, In arg (default [] (LaunchOptions.args options)) /\
      (JS.startsWith arg "-profile" = true \/ JS.startsWith arg "--profile" = true)) ->
   _defaultArgs options userDataDir port = Threw profile_error) /\
  (default false (LaunchOptions.devtools options) = false ->
   (forall arg, In arg (default [] (LaunchOptions.args options)) ->
      JS.startsWith arg "-profile" = false /\ JS.startsWith arg "--profile" = false) ->
   (exists arg, In arg (default [] (LaunchOptions.args options)) /\
      JS.startsWith arg "-juggler" = true) ->
   _defaultArgs options userDataDir port = Threw juggler_error) /\
  (default false (LaunchOptions.devtools options) = false ->
   (forall arg, In arg (default [] (LaunchOptions.args options)) ->
      JS.startsWith arg "-profile" = false /\ JS.startsWith arg "--profile" = false /\
      JS.startsWith arg "-juggler" = false) ->
   exists assembled, _defaultArgs options userDataDir port = Returned assembled).
Proof.
  assert (forall l, (forall arg, In arg l ->
             JS.startsWith arg "-profile" = false /\ JS.startsWith arg "--profile" = false) ->
           existsb is_profile_arg l = false) as Hnp.
  { intros l H. destruct (existsb is_profile_arg l) eqn:E; [|reflexivity].
    apply existsb_exists in E as (arg & Hin & Hp). destruct (H arg Hin) as [H1 H2].
    unfold is_profile_arg in Hp. rewrite H1, H2 in Hp. discriminate Hp. }
  unfold _defaultArgs. rewrite !is_truthy_find by reflexivity.
  split; [intros ->; reflexivity|]. split; [|split].
  - intros -> (arg & Hin & Hp).
    assert (existsb is_profile_arg (default [] (LaunchOptions.args options)) = true) as ->.
    { apply existsb_exists. exists arg. split; [exact Hin|].
      unfold is_profile_arg. destruct Hp as [-> | ->]; [reflexivity|apply orb_true_r]. }
    reflexivity.
  - intros -> Hn (arg & Hin & Hj). rewrite (Hnp _ Hn).
    assert (existsb is_juggler_arg (default [] (LaunchOptions.args options)) = true) as ->.
    { apply existsb_exists. exists arg. split; [exact Hin|exact Hj]. }
    reflexivity.
  - intros -> Hn. rewrite (Hnp _ (fun arg Hin => conj (proj1 (Hn arg Hin))
                                                  (proj1 (proj2 (Hn arg Hin))))).
    assert (existsb is_juggler_arg (default [] (LaunchOptions.args options)) = false) as ->.
    { destruct (existsb is_juggler_arg _) eqn:E; [|reflexivity].
      apply existsb_exists in E as (arg & Hin & Hj).
      destruct (Hn arg Hin) as (_ & _ & H3). unfold is_juggler_arg in Hj. congruence. }
    eexists. reflexivity.
Qed.

(** X10: the fixed places of a list that [_defaultArgs] returns for a port
    that is a safe integer: it begins with -no-remote; its second argument
    is -wait-for-browser exactly when the options set [headless] to false,
    and -headless otherwise (a devtools request cannot turn the window on,
    it is refused); then come -profile with the profile directory and
    -juggler with the port in decimal. *)
Theorem defaultArgs_fixed_places options userDataDir port assembled :
  JS.safe_integer port ->
  _defaultArgs options userDataDir port = Returned assembled ->
  assembled !! 0%nat = Some "-no-remote" /\
  (LaunchOptions.headless options = Some false ->
   assembled !! 1%nat = Some "-wait-for-browser") /\
  (LaunchOptions.headless options <> Some false ->
   assembled !! 1%nat = Some "-headless") /\
  assembled !! 2%nat = Some "-profile" /\
  assembled !! 3%nat = Some userDataDir /\
  assembled !! 4%nat = Some "-juggler" /\
  assembled !! 5%nat = Some (JS.String_of_number port).
Proof.
  intros _ H. pose proof (_defaultArgs_Returned _ _ _ _ H) as Hr.
  rewrite _defaultArgs_accepted in H by exact Hr. injection H as <-.
  unfold refused in Hr. apply orb_false_iff in Hr as [Hr _].
  apply orb_false_iff in Hr as [Hd _].
  unfold leading_args. rewrite Hd. cbn [negb].
  repeat split; try reflexivity.
  - intros ->. reflexivity.
  - intros Hh. destruct (LaunchOptions.headless options) as [[|]|]; try reflexivity.
    contradiction Hh. reflexivity.
Qed.

Lemma defaultArgs_fixed_places_witness :
  JS.safe_integer 9222 /\
  _defaultArgs headful_options "/profile" 9222 =
    Returned ["-no-remote"; "-wait-for-browser"; "-profile"; "/profile"; "-juggler"; "9222";
              "about:blank"] /\
  ["-no-remote"; "-wait-for-browser"; "-profile"; "/profile"; "-juggler"; "9222";
   "about:blank"] !! 0%nat = Some "-no-remote" /\
  (LaunchOptions.headless headful_options = Some false ->
   ["-no-remote"; "-wait-for-browser"; "-profile"; "/profile"; "-juggler"; "9222";
    "about:blank"] !! 1%nat = Some "-wait-for-browser") /\
  (LaunchOptions.headless headful_options <> Some false ->
   ["-no-remote"; "-wait-for-browser"; "-profile"; "/profile"; "-juggler"; "9222";
    "about:blank"] !! 1%nat = Some "-headless") /\
  ["-no-remote"; "-wait-for-browser"; "-profile"; "/profile"; "-juggler"; "9222";
   "about:blank"] !! 2%nat = Some "-profile" /\
  ["-no-remote"; "-wait-for-browser"; "-profile"; "/profile"; "-juggler"; "9222";
   "about:blank"] !! 3%nat = Some "/profile" /\
  ["-no-remote"; "-wait-for-browser"; "-profile"; "/profile"; "-juggler"; "9222";
   "about:blank"] !! 4%nat = Some "-juggler" /\
  ["-no-remote"; "-wait-for-browser"; "-profile"; "/profile"; "-juggler"; "9222";
   "about:blank"] !! 5%nat = Some (JS.String_of_number 9222).
Proof.
  assert (JS.safe_integer 9222) as Hs by (unfold JS.safe_integer; lia).
  split; [exact Hs|]. split; [reflexivity|].
  exact (defaultArgs_fixed_places headful_options "/profile" 9222 _ Hs eq_refl).
Defined.

(** X11: with an array as [ignoreDefaultArgs], the arguments of the launch
    are the default arguments in their order without those that equal a
    string of the array, wherever they stand: among the leading ones, among
    the arguments of the caller, or at the end.  Nothing of the array is
    left, nothing else is lost, and an empty array changes nothing. *)
Theorem denied_arguments_filtered options userDataDir port denied defaults :
  LaunchOptions.ignoreDefaultArgs options = Some (IgnoreThese denied) ->
  _defaultArgs options userDataDir (JS.or_zero port) = Returned defaults ->
  exists assembled,
    firefoxArguments options userDataDir port = Returned assembled /\
    sublist assembled defaults /\
    (forall arg, In arg assembled <-> In arg defaults /\ ~ In arg denied) /\
    (denied = [] -> assembled = defaults).
Proof.
  intros Hi Hd. unfold firefoxArguments. rewrite Hi, Hd. cbn [default completion_map].
  eexists. split; [reflexivity|].
  assert (forall arg, negb (JS.includes denied arg) = true <-> ~ In arg denied) as Hinc.
  { intros arg. unfold JS.includes. rewrite negb_true_iff. split.
    - intros Hf Hin. assert (existsb (String.eqb arg) denied = true) as Ht.
      { apply existsb_exists. exists arg. split; [exact Hin|apply String.eqb_refl]. }
      congruence.
    - intros Hn. destruct (existsb (String.eqb arg) denied) eqn:E; [|reflexivity].
      apply existsb_exists in E as (x & Hin & Hx). apply String.eqb_eq in Hx. subst x.
      contradiction. }
  split; [|split].
  - clear. induction defaults as [|x l IH]; simpl; [constructor|].
    destruct (negb _); [apply sublist_skip|apply sublist_cons]; exact IH.
  - intros arg. rewrite filter_In, Hinc. reflexivity.
  - intros ->. clear. induction defaults as [|x l IH]; [reflexivity|].
    change (x :: List.filter (fun arg => negb (JS.includes [] arg)) l = x :: l).
    f_equal. exact IH.
Qed.

Lemma denied_arguments_filtered_witness :
  LaunchOptions.ignoreDefaultArgs denying_options =
    Some (IgnoreThese ["-headless"; "about:blank"]) /\
  _defaultArgs denying_options "/profile" (JS.or_zero None) =
    Returned ["-no-remote"; "-headless"; "-profile"; "/profile"; "-juggler"; "0"; "-foo";
              "about:blank"] /\
  exists assembled,
    firefoxArguments denying_options "/profile" None = Returned assembled /\
    sublist assembled
      ["-no-remote"; "-headless"; "-profile"; "/profile"; "-juggler"; "0"; "-foo";
       "about:blank"] /\
    (forall arg, In arg assembled <->
       In arg ["-no-remote"; "-headless"; "-profile"; "/profile"; "-juggler"; "0"; "-foo";
               "about:blank"] /\ ~ In arg ["-headless"; "about:blank"]) /\
    (["-headless"; "about:blank"] = [] ->
     assembled = ["-no-remote"; "-headless"; "-profile"; "/profile"; "-juggler"; "0"; "-foo";
                  "about:blank"]).
Proof.
  split; [reflexivity|]. split; [reflexivity|].
  exact (denied_arguments_filtered denying_options "/profile" None _ _ eq_refl eq_refl).
Defined.

Example denied_arguments :
  firefoxArguments denying_options "/profile" None =
  Returned ["-no-remote"; "-profile"; "/profile"; "-juggler"; "0"; "-foo"].
Proof. reflexivity. Qed.

(** ** The browser fetcher *)

Lemma includes_In (a : list string) (x : string) :
  JS.includes a x = true <-> In x a.
Proof.
  unfold JS.includes. rewrite existsb_exists. split.
  - intros (y & Hin & Hy). apply String.eqb_eq in Hy. subst y. exact Hin.
  - intros Hin. exists x. split; [exact Hin|apply String.eqb_refl].
Qed.

Lemma own_downloadURL platform :
  match own_property downloadURLs platform with
  | Some template =>
      In platform supported_platforms /\
      template = "%s/builds/firefox/%s/firefox-" +:+ platform +:+ ".zip"
  | None => ~ In platform supported_platforms
  end.
Proof.
  unfold downloadURLs, supported_platforms. cbn [own_property].
  repeat match goal with
         | |- context [String.eqb ?k platform] =>
             destruct (String.eqb_spec k platform) as [<-|?]
         end;
    try (split; [find_in_list|reflexivity]).
  simpl. intuition congruence.
Qed.

Lemma platform_check platform :
  property_truthy (get_property downloadURLs platform) = true <->
  In platform supported_platforms \/ In platform Object_prototype.
Proof.
  unfold get_property. pose proof (own_downloadURL platform) as H.
  destruct (own_property downloadURLs platform) as [template|].
  - destruct H as [H ->]. split; [intros _; left; exact H|intros _].
    unfold supported_platforms in H. simpl in H.
    destruct H as [<-|[<-|[<-|[<-|[]]]]]; reflexivity.
  - destruct (JS.includes Object_prototype platform) eqn:E.
    + apply includes_In in E. split; [intros _; right; exact E|reflexivity].
    + split; [discriminate|]. intros [Hs|Hp]; [contradiction|].
      apply includes_In in Hp. congruence.
Qed.

(** X12: the check of [_createBrowserFetcher].  The platform is the one of
    the options when they have one, and the default of the host otherwise.
    A fetcher is made when the platform is linux, mac, win32 or win64, and
    also when it is a name that the object of the templates inherits (such
    as toString or constructor): the check looks the platform up in the
    object and asks only whether what it finds is truthy.  For every other
    platform the call throws Unsupported platform: and the platform.  The
    fetcher that is made has the folder of the options or, without one,
    .local-firefox under the project root, the platform, and the revision
    of the object. *)
Theorem fetcher_platform_check this host os_arch options :
  let platform :=
    default (default_platform (os_platform host) os_arch) (fetcher_platform options) in
  (In platform supported_platforms \/ In platform Object_prototype ->
   exists fetcher,
     _createBrowserFetcher this host os_arch options = Returned fetcher /\
     downloadsFolder fetcher =
       default (path_join host (_projectRoot this) ".local-firefox") (fetcher_path options) /\
     fetcher_for fetcher = platform /\
     preferredRevision fetcher = _revision this) /\
  (~ In platform supported_platforms -> ~ In platform Object_prototype ->
   _createBrowserFetcher this host os_arch options =
     Threw ("Unsupported platform: " +:+ platform)).
Proof.
  intros platform. unfold _createBrowserFetcher. fold platform.
  pose proof (platform_check platform) as H.
  destruct (property_truthy (get_property downloadURLs platform)).
  - split; [intros _; eexists; repeat split|].
    intros Hs Hp. destruct (proj1 H eq_refl); contradiction.
  - split; [|reflexivity]. intros Hin. apply H in Hin. discriminate Hin.
Qed.

Example inherited_platform_passes :
  exists fetcher,
    _createBrowserFetcher a_firefox linux_host "x64" inherited_platform_options =
      Returned fetcher /\
    fetcher_for fetcher = "toString".
Proof. eexists. split; reflexivity. Qed.

(** X13: without a platform in the options, [_createBrowserFetcher] makes a
    fetcher on every host whose [os.platform()] is darwin, linux or win32:
    for mac on darwin, for linux on linux, and on win32 for win64 when
    [os.arch()] is x64 and for win32 otherwise.  On a host with another
    platform, one that is neither a key of the templates nor an inherited
    name, it throws Unsupported platform: and the platform of the host. *)
Theorem default_platform_supported this host os_arch options :
  fetcher_platform options = None ->
  (In (os_platform host) ["darwin"; "linux"; "win32"] ->
   exists fetcher,
     _createBrowserFetcher this host os_arch options = Returned fetcher /\
     fetcher_for fetcher =
       (if String.eqb (os_platform host) "darwin" then "mac"
        else if String.eqb (os_platform host) "linux" then "linux"
        else if String.eqb os_arch "x64" then "win64" else "win32")) /\
  (~ In (os_platform host) ["darwin"; "linux"; "win32"] ->
   ~ In (os_platform host) supported_platforms ->
   ~ In (os_platform host) Object_prototype ->
   _createBrowserFetcher this host os_arch options =
     Threw ("Unsupported platform: " +:+ os_platform host)).
Proof.
  intros Hn.
  assert (forall platform,
            default_platform (os_platform host) os_arch = platform ->
            (In platform supported_platforms ->
             exists fetcher,
               _createBrowserFetcher this host os_arch options = Returned fetcher /\
               fetcher_for fetcher = platform) /\
            (~ In platform supported_platforms -> ~ In platform Object_prototype ->
             _createBrowserFetcher this host os_arch options =
               Threw ("Unsupported platform: " +:+ platform))) as Hcheck.
  { intros platform <-. unfold _createBrowserFetcher. rewrite Hn. cbn [default].
    pose proof (platform_check (default_platform (os_platform host) os_arch)) as H.
    destruct (property_truthy _).
    - split; [intros _; eexists; split; reflexivity|].
      intros Hs Hp. destruct (proj1 H eq_refl); contradiction.
    - split; [|reflexivity]. intros Hin.
      assert (false = true) as [=] by (apply H; left; exact Hin). }
  split.
  - intros Hin.
    assert (default_platform (os_platform host) os_arch =
            (if String.eqb (os_platform host) "darwin" then "mac"
             else if String.eqb (os_platform host) "linux" then "linux"
             else if String.eqb os_arch "x64" then "win64" else "win32") /\
            In (default_platform (os_platform host) os_arch) supported_platforms)
      as [Heq Hs].
    { unfold default_platform. simpl in Hin.
      destruct Hin as [<-|[<-|[<-|[]]]]; cbn.
      - split; [reflexivity|find_in_list].
      - split; [reflexivity|find_in_list].
      - destruct (String.eqb os_arch "x64"); (split; [reflexivity|find_in_list]). }
    destruct (proj1 (Hcheck _ eq_refl) Hs) as (fetcher & Hf & Hp).
    exists fetcher. split; [exact Hf|]. rewrite Hp. exact Heq.
  - intros Hd Hs Hp.
    assert (default_platform (os_platform host) os_arch = os_platform host) as Heq.
    { unfold default_platform.
      repeat match goal with
             | |- context [String.eqb ?a ?b] =>
                 destruct (String.eqb_spec a b) as [E|?];
                   [exfalso; apply Hd; rewrite E; find_in_list|]
             end.
      reflexivity. }
    exact (proj2 (Hcheck _ Heq) Hs Hp).
Qed.

Lemma default_platform_supported_witness :
  fetcher_platform no_fetcher_options = None /\
  (In (os_platform mac_host) ["darwin"; "linux"; "win32"] ->
   exists fetcher,
     _createBrowserFetcher a_firefox mac_host "arm64" no_fetcher_options = Returned fetcher /\
     fetcher_for fetcher =
       (if String.eqb (os_platform mac_host) "darwin" then "mac"
        else if String.eqb (os_platform mac_host) "linux" then "linux"
        else if String.eqb "arm64" "x64" then "win64" else "win32")) /\
  (~ In (os_platform mac_host) ["darwin"; "linux"; "win32"] ->
   ~ In (os_platform mac_host) supported_platforms ->
   ~ In (os_platform mac_host) Object_prototype ->
   _createBrowserFetcher a_firefox mac_host "arm64" no_fetcher_options =
     Threw ("Unsupported platform: " +:+ os_platform mac_host)).
Proof.
  split; [reflexivity|].
  exact (default_platform_supported a_firefox mac_host "arm64" no_fetcher_options eq_refl).
Defined.

(** X14: what the fetcher that [_createBrowserFetcher] makes says about a
    revision.  For each of the four platforms the download address is the
    host, /builds/firefox/, the revision, /firefox-, the platform and .zip,
    where the host is the one of the options or, without one,
    https://playwright.azureedge.net; the host and the revision are put in
    as they are, also when they hold a percent sign.  The platform is the
    one the fetcher asks about, not the one it was made for.  The
    executable is firefox/firefox on linux, firefox.exe under firefox on
    both Windows platforms, and the binary inside Nightly.app on mac. *)
Theorem revision_description this host os_arch options fetcher platform revision :
  _createBrowserFetcher this host os_arch options = Returned fetcher ->
  In platform supported_platforms ->
  downloadUrl (resolver fetcher platform revision) =
    Some (default "https://playwright.azureedge.net" (fetcher_host options) +:+
          "/builds/firefox/" +:+ revision +:+ "/firefox-" +:+ platform +:+ ".zip") /\
  description_executablePath (resolver fetcher platform revision) =
    (if String.eqb platform "linux" then path_join host "firefox" "firefox"
     else if String.eqb platform "mac" then
       path_join host
         (path_join host (path_join host (path_join host "firefox" "Nightly.app") "Contents")
            "MacOS") "firefox"
     else path_join host "firefox" "firefox.exe").
Proof.
  intros Hf Hin. unfold _createBrowserFetcher in Hf.
  destruct (property_truthy _); [|discriminate Hf]. injection Hf as <-.
  cbn [resolver]. unfold supported_platforms in Hin. simpl in Hin.
  destruct Hin as [<-|[<-|[<-|[<-|[]]]]]; split; reflexivity.
Qed.

Lemma revision_description_witness :
  _createBrowserFetcher a_firefox linux_host "x64" mirror_options =
    Returned {| downloadsFolder := "/pw/.local-firefox";
                fetcher_for := "linux";
                preferredRevision := "1021";
                resolver := describe_revision linux_host "https://mirror.example" |} /\
  In "win64" supported_platforms /\
  downloadUrl (describe_revision linux_host "https://mirror.example" "win64" "1021") =
    Some (default "https://playwright.azureedge.net" (fetcher_host mirror_options) +:+
          "/builds/firefox/" +:+ "1021" +:+ "/firefox-" +:+ "win64" +:+ ".zip") /\
  description_executablePath
    (describe_revision linux_host "https://mirror.example" "win64" "1021") =
    (if String.eqb "win64" "linux" then path_join linux_host "firefox" "firefox"
     else if String.eqb "win64" "mac" then
       path_join linux_host
         (path_join linux_host
            (path_join linux_host (path_join linux_host "firefox" "Nightly.app") "Contents")
            "MacOS") "firefox"
     else path_join linux_host "firefox" "firefox.exe").
Proof.
  split; [reflexivity|]. split; [find_in_list|].
  exact (revision_description a_firefox linux_host "x64" mirror_options _ "win64" "1021"
           eq_refl (or_intror (or_intror (or_intror (or_introl eq_refl))))).
Defined.

Example mirror_download_address :
  downloadUrl (describe_revision linux_host "https://mirror.example" "win64" "1021") =
  Some "https://mirror.example/builds/firefox/1021/firefox-win64.zip".
Proof. reflexivity. Qed.

(** ** The statements of user.js, for any table *)

Lemma append_assoc (s1 s2 s3 : string) : (s1 +:+ s2) +:+ s3 = s1 +:+ (s2 +:+ s3).
Proof.
  induction s1 as [|c s1 IH]; [reflexivity|].
  change (String c ((s1 +:+ s2) +:+ s3) = String c (s1 +:+ (s2 +:+ s3))).
  rewrite IH. reflexivity.
Qed.

Lemma append_nil_r (s : string) : s +:+ "" = s.
Proof.
  induction s as [|c s IH]; [reflexivity|].
  change (String c (s +:+ "") = String c s). rewrite IH. reflexivity.
Qed.

Lemma length_append (s t : string) :
  String.length (s +:+ t) = (String.length s + String.length t)%nat.
Proof.
  induction s as [|c s IH]; [reflexivity|].
  change (S (String.length (s +:+ t)) = S (String.length s + String.length t)).
  rewrite IH. reflexivity.
Qed.

Ltac each_ascii c := destruct c as [[] [] [] [] [] [] [] []].

Lemma read_escape c fuel rest acc :
  read_string (S fuel) (JS.escape c +:+ rest) acc =
  read_string fuel rest (acc +:+ String c "").
Proof. each_ascii c; reflexivity. Qed.

Lemma length_escape c : (1 <= String.length (JS.escape c))%nat.
Proof. each_ascii c; vm_compute; lia. Qed.

Lemma no_line_terminator_escape c : no_line_terminator (JS.escape c) = true.
Proof. each_ascii c; reflexivity. Qed.

Lemma length_escape_all s : (String.length s <= String.length (JS.escape_all s))%nat.
Proof.
  induction s as [|c s IH]; [reflexivity|].
  cbn [JS.escape_all String.length]. rewrite length_append.
  pose proof (length_escape c). lia.
Qed.

Lemma read_escape_all s fuel rest acc :
  (String.length s < fuel)%nat ->
  read_string fuel (JS.escape_all s +:+ JS.dquote +:+ rest) acc = Some (acc +:+ s, rest).
Proof.
  revert fuel acc. induction s as [|c s IH]; intros [|fuel] acc Hlt;
    cbn [String.length] in Hlt; try lia.
  - rewrite append_nil_r. reflexivity.
  - cbn [JS.escape_all]. rewrite append_assoc, read_escape, IH by lia.
    rewrite append_assoc. reflexivity.
Qed.

Lemma read_value_string s rest :
  read_value (JS.stringify_string s +:+ rest) = Some (JS.VStr s, rest).
Proof.
  unfold JS.stringify_string.
  change ((JS.dquote +:+ JS.escape_all s +:+ JS.dquote) +:+ rest)
    with (String "034" ((JS.escape_all s +:+ JS.dquote) +:+ rest)).
  rewrite append_assoc. unfold read_value.
  cbn [strip_literal Ascii.eqb Bool.eqb N_of_ascii N_of_digits N.eqb Pos.eqb N.add N.mul
       Pos.add Pos.mul Pos.succ].
  rewrite read_escape_all; [reflexivity|].
  cbn [String.length]. rewrite length_append. pose proof (length_escape_all s). lia.
Qed.

Lemma digit_cases (m : N) :
  (m < 10)%N ->
  m = 0%N \/ m = 1%N \/ m = 2%N \/ m = 3%N \/ m = 4%N \/ m = 5%N \/ m = 6%N \/ m = 7%N \/
  m = 8%N \/ m = 9%N.
Proof. lia. Qed.

Ltac each_digit m H :=
  destruct (digit_cases m H) as [->|[->|[->|[->|[->|[->|[->|[->|[->| ->]]]]]]]]].

Lemma read_digit m t acc :
  (m < 10)%N ->
  read_digits (String (pretty_N_char m) t) acc = read_digits t (10 * acc + Z.of_N m).
Proof. intros H. each_digit m H; reflexivity. Qed.

Lemma read_value_digit m t :
  (m < 10)%N ->
  read_value (String (pretty_N_char m) t) =
  (let '(n, rest) := read_digits (String (pretty_N_char m) t) 0 in
   if String.eqb rest (String (pretty_N_char m) t) then None else Some (JS.VNum n, rest)).
Proof. intros H. each_digit m H; reflexivity. Qed.

Lemma digit_is_no_parenthesis m t : (m < 10)%N -> String.eqb ");" (String (pretty_N_char m) t) = false.
Proof. intros H. each_digit m H; reflexivity. Qed.

Lemma read_pretty_N_go x :
  forall s, exists k,
    forall rest acc,
      read_digits (pretty_N_go x s +:+ rest) acc =
      read_digits (s +:+ rest) (acc * k + Z.of_N x).
Proof.
  induction (N.lt_wf_0 x) as [x _ IH]. intros s.
  destruct (N.eq_dec x 0%N) as [->|Hx].
  - exists 1. intros rest acc. rewrite pretty_N_go_0. f_equal. lia.
  - assert (x `div` 10 < x)%N as Hlt by (apply N.div_lt; lia).
    destruct (IH _ Hlt (String (pretty_N_char (x `mod` 10)) s)) as [k Hk].
    exists (10 * k). intros rest acc.
    rewrite pretty_N_go_step, Hk by lia.
    change (String (pretty_N_char (x `mod` 10)) s +:+ rest)
      with (String (pretty_N_char (x `mod` 10)) (s +:+ rest)).
    rewrite read_digit by (apply N.mod_lt; lia). f_equal.
    pose proof (N.div_mod x 10%N ltac:(lia)) as Hdm.
    rewrite Hdm at 3. rewrite N2Z.inj_add, N2Z.inj_mul. simpl Z.of_N. lia.
Qed.

Lemma pretty_N_go_head x :
  forall s, (0 < x)%N ->
    exists m t, (m < 10)%N /\ pretty_N_go x s = String (pretty_N_char m) t.
Proof.
  induction (N.lt_wf_0 x) as [x _ IH]. intros s Hx.
  rewrite pretty_N_go_step by exact Hx.
  destruct (N.eq_dec (x `div` 10)%N 0%N) as [E|E].
  - rewrite E, pretty_N_go_0. exists (x `mod` 10)%N, s.
    split; [apply N.mod_lt; lia|reflexivity].
  - apply IH; [apply N.div_lt; lia|apply N.neq_0_lt_0; exact E].
Qed.

Lemma no_line_terminator_pretty_N_go x :
  forall s, no_line_terminator s = true -> no_line_terminator (pretty_N_go x s) = true.
Proof.
  induction (N.lt_wf_0 x) as [x _ IH]. intros s Hs.
  destruct (N.eq_dec x 0%N) as [->|Hx]; [rewrite pretty_N_go_0; exact Hs|].
  rewrite pretty_N_go_step by lia. apply IH; [apply N.div_lt; lia|].
  cbn [no_line_terminator]. rewrite Hs, andb_true_r.
  assert (x `mod` 10 < 10)%N as Hm by (apply N.mod_lt; lia).
  each_digit (x `mod` 10)%N Hm; reflexivity.
Qed.

Lemma pretty_positive_go (p : positive) :
  JS.String_of_number (Z.pos p) = pretty_N_go (N.pos p) "".
Proof. reflexivity. Qed.

Lemma pretty_negative_go (p : positive) :
  JS.String_of_number (Z.neg p) = String "-" (pretty_N_go (N.pos p) "").
Proof. reflexivity. Qed.

Lemma read_value_number n :
  read_value (JS.String_of_number n +:+ ");") = Some (JS.VNum n, ");").
Proof.
  destruct n as [|p|p].
  - reflexivity.
  - rewrite pretty_positive_go.
    destruct (read_pretty_N_go (N.pos p) "") as [k Hk].
    specialize (Hk ");" 0). 
    destruct (pretty_N_go_head (N.pos p) "" ltac:(lia)) as (m & t & Hm & Ht).
    rewrite Ht in Hk |- *.
    change (String (pretty_N_char m) t +:+ ");")
      with (String (pretty_N_char m) (t +:+ ");")) in Hk |- *.
    rewrite read_value_digit, Hk by exact Hm.
    change (read_digits ("" +:+ ");") (0 * k + Z.of_N (N.pos p)))
      with (0 * k + Z.of_N (N.pos p), ");"). cbv beta iota.
    rewrite digit_is_no_parenthesis by exact Hm. reflexivity.
  - rewrite pretty_negative_go.
    destruct (read_pretty_N_go (N.pos p) "") as [k Hk].
    specialize (Hk ");" 0).
    change (String "-" (pretty_N_go (N.pos p) "") +:+ ");")
      with (String "-" (pretty_N_go (N.pos p) "" +:+ ");")).
    unfold read_value.
    cbn [strip_literal Ascii.eqb Bool.eqb N_of_ascii N_of_digits N.eqb Pos.eqb N.add N.mul
         Pos.add Pos.mul Pos.succ].
    rewrite Hk. reflexivity.
Qed.

Lemma read_value_stringify v : read_value (JS.stringify v +:+ ");") = Some (v, ");").
Proof.
  destruct v as [[|]|n|s]; [reflexivity|reflexivity|apply read_value_number|].
  apply read_value_string.
Qed.

Lemma read_user_pref_user_pref key v : read_user_pref (user_pref (key, v)) = Some (key, v).
Proof.
  unfold read_user_pref, user_pref. cbn [fst snd].
  rewrite strip_literal_app, read_value_string, strip_literal_app,
    read_value_stringify.
  reflexivity.
Qed.

(** X15: reading a statement of [populateProfile] back gives the key and
    the value it was made from, whatever they are: a key or a string value
    with quotes, backslashes, line breaks or other control characters, a
    negative number, a boolean.  So two entries that differ never give the
    same statement.  (Strings are strings of code units below 256, numbers
    are integers in decimal, as in the preference table.) *)
Theorem user_pref_read_back :
  (forall key v, read_user_pref (user_pref (key, v)) = Some (key, v)) /\
  (forall entry1 entry2, user_pref entry1 = user_pref entry2 -> entry1 = entry2).
Proof.
  split; [exact read_user_pref_user_pref|].
  intros [k1 v1] [k2 v2] H.
  pose proof (read_user_pref_user_pref k1 v1) as H1.
  rewrite H, read_user_pref_user_pref in H1. congruence.
Qed.

Lemma no_line_terminator_escape_all s : no_line_terminator (JS.escape_all s) = true.
Proof.
  induction s as [|c s IH]; [reflexivity|].
  cbn [JS.escape_all]. rewrite no_line_terminator_app, no_line_terminator_escape, IH.
  reflexivity.
Qed.

Lemma no_line_terminator_stringify v : no_line_terminator (JS.stringify v) = true.
Proof.
  destruct v as [[|]|[|p|p]|s]; try reflexivity.
  - cbn [JS.stringify]. rewrite pretty_positive_go.
    apply no_line_terminator_pretty_N_go. reflexivity.
  - cbn [JS.stringify]. rewrite pretty_negative_go. cbn [no_line_terminator].
    rewrite no_line_terminator_pretty_N_go; reflexivity.
  - cbn [JS.stringify]. unfold JS.stringify_string.
    rewrite !no_line_terminator_app, no_line_terminator_escape_all. reflexivity.
Qed.

Lemma no_line_terminator_user_pref entry : no_line_terminator (user_pref entry) = true.
Proof.
  unfold user_pref, JS.stringify_string.
  rewrite !no_line_terminator_app, no_line_terminator_escape_all, no_line_terminator_stringify.
  reflexivity.
Qed.

Lemma lines_go_line s t line :
  no_line_terminator s = true ->
  lines_go (s +:+ JS.LF +:+ t) line = (line +:+ s) :: lines_go t "".
Proof.
  revert line. induction s as [|c s IH]; intros line Hs.
  - rewrite append_nil_r. reflexivity.
  - cbn [no_line_terminator] in Hs. apply andb_true_iff in Hs as [Hc Hs].
    change (String c s +:+ JS.LF +:+ t) with (String c (s +:+ JS.LF +:+ t)).
    cbn [lines_go].
    assert ((N_of_ascii c =? 10)%N = false) as ->.
    { unfold is_line_terminator in Hc. apply negb_true_iff, orb_false_iff in Hc as [Hc _].
      exact Hc. }
    rewrite IH by exact Hs. rewrite append_assoc. reflexivity.
Qed.

Lemma lines_go_last s line :
  no_line_terminator s = true -> lines_go s line = [line +:+ s].
Proof.
  revert line. induction s as [|c s IH]; intros line Hs.
  - rewrite append_nil_r. reflexivity.
  - cbn [no_line_terminator] in Hs. apply andb_true_iff in Hs as [Hc Hs].
    cbn [lines_go].
    assert ((N_of_ascii c =? 10)%N = false) as ->.
    { unfold is_line_terminator in Hc. apply negb_true_iff, orb_false_iff in Hc as [Hc _].
      exact Hc. }
    rewrite IH by exact Hs. rewrite append_assoc. reflexivity.
Qed.

Lemma lines_join (statement : string) (statements : list string) :
  List.Forall (fun s => no_line_terminator s = true) (statement :: statements) ->
  lines (JS.join JS.LF (statement :: statements)) = statement :: statements.
Proof.
  unfold lines, JS.join. revert statement.
  induction statements as [|y l IH]; intros x H.
  - cbn [String.concat]. apply lines_go_last. exact (List.Forall_inv H).
  - change (String.concat JS.LF (x :: y :: l))
      with (x +:+ JS.LF +:+ String.concat JS.LF (y :: l)).
    rewrite lines_go_line by exact (List.Forall_inv H).
    rewrite IH by exact (List.Forall_inv_tail H). reflexivity.
Qed.

(** X16: a statement of [populateProfile] holds no line break, whatever the
    key and the value are, because JSON escapes the line breaks of a
    string.  So for any table that is not empty, the text that the join
    with line feeds gives has one line for each entry, in the order of the
    table: the lines are the statements, and read back they give the
    entries. *)
Theorem statements_on_lines entry table :
  no_line_terminator (user_pref entry) = true /\
  lines (JS.join JS.LF (map user_pref (entry :: table))) = map user_pref (entry :: table) /\
  map read_user_pref (lines (JS.join JS.LF (map user_pref (entry :: table)))) =
    map Some (entry :: table).
Proof.
  split; [apply no_line_terminator_user_pref|].
  assert (lines (JS.join JS.LF (map user_pref (entry :: table))) =
          map user_pref (entry :: table)) as E.
  { cbn [map]. apply lines_join. rewrite <- (map_cons user_pref).
    apply List.Forall_forall. intros s Hs. apply in_map_iff in Hs as (e & <- & _).
    apply no_line_terminator_user_pref. }
  split; [exact E|]. rewrite E, map_map. apply map_ext.
  intros [key v]. apply read_user_pref_user_pref.
Qed.

Example line_break_in_a_value :
  user_pref ("a", JS.VStr (String "010" "b")) =
    "user_pref(" +:+ JS.dquote +:+ "a" +:+ JS.dquote +:+ ", " +:+
    JS.dquote +:+ JS.backslash +:+ "nb" +:+ JS.dquote +:+ ");" /\
  read_user_pref (user_pref ("a", JS.VStr (String "010" "b"))) =
    Some ("a", JS.VStr (String "010" "b")).
Proof. split; reflexivity. Qed.
